(** * HDB Assist: the Flowise response extractor and the decision renderer

    A shallow embedding of [ui.py]: the helpers [_extract_json_anywhere],
    [extract_json_from_flowise_response], [call_flowise], [render_decision]
    and the submit handlers of the report and evaluation tabs, together
    with the part of Python they rest on (values as [json.loads] builds
    them, truthiness, [str.strip], [dict.get], [json.loads] itself and the
    one regular expression the file uses); then the chat tab, the settings
    read from the environment, the session state and the sidebar. *)

From Stdlib Require Import String Ascii List ZArith NArith Bool Lia DecimalString.
Import ListNotations.
Local Open Scope string_scope.
Local Open Scope list_scope.
Set Warnings "-register-all".

(** ** Python values

    A Python [str] is a Rocq [string] holding its UTF-8 bytes (a lone
    surrogate, which [json.loads] can produce, takes the three bytes the
    same scheme gives it).  A [float] is kept as the decimal it was read
    from, [FDec neg m e] standing for the double nearest to [m * 10^e] with
    the sign [neg]: the double is a function of it, and the file compares no
    two floats. *)

Inductive pyfloat : Type :=
| FDec (neg : bool) (mantissa : N) (exp10 : Z)
| FInf (neg : bool)
| FNan.

Inductive value : Type :=
| VNone
| VBool (b : bool)
| VInt (z : Z)
| VFloat (f : pyfloat)
| VStr (s : string)
| VList (l : list value)
| VDict (d : list (string * value)).

(** A [dict] keeps insertion order: an association list with distinct keys. *)
Definition dict : Type := list (string * value).

(** [float(lit) != 0.0]: a decimal rounds to zero exactly when it is at most
    [2^-1075], half of the smallest subnormal double. *)
Definition float_nonzero (f : pyfloat) : bool :=
  match f with
  | FDec _ m e =>
      if (m =? 0)%N then false
      else if (0 <=? e)%Z then true
      else (10 ^ (- e) <? Z.of_N m * 2 ^ 1075)%Z
  | FInf _ => true
  | FNan => true
  end.

(** [bool(v)] *)
Definition truthy (v : value) : bool :=
  match v with
  | VNone => false
  | VBool b => b
  | VInt z => negb (z =? 0)%Z
  | VFloat f => float_nonzero f
  | VStr s => negb (s =? "")%string
  | VList l => match l with [] => false | _ :: _ => true end
  | VDict d => match d with [] => false | _ :: _ => true end
  end.

(** [x or y] *)
Definition py_or (x y : value) : value := if truthy x then x else y.

(** [type(v).__name__] *)
Definition type_name (v : value) : string :=
  match v with
  | VNone => "NoneType"
  | VBool _ => "bool"
  | VInt _ => "int"
  | VFloat _ => "float"
  | VStr _ => "str"
  | VList _ => "list"
  | VDict _ => "dict"
  end.

Definition is_str (v : value) : bool :=
  match v with VStr _ => true | _ => false end.

Definition is_list (v : value) : bool :=
  match v with VList _ => true | _ => false end.

(** ** Exceptions and results *)

Record exn : Type := mk_exn { exn_class : string; exn_msg : string }.

Definition AttributeError (ty attr : string) : exn :=
  mk_exn "AttributeError" ("'" ++ ty ++ "' object has no attribute '" ++ attr ++ "'").

Definition TypeError (m : string) : exn := mk_exn "TypeError" m.

Definition RuntimeError (m : string) : exn := mk_exn "RuntimeError" m.

Definition ValueError (m : string) : exn := mk_exn "ValueError" m.

Inductive result (A : Type) : Type :=
| Ok (a : A)
| Raise (e : exn).
Arguments Ok {A} a.
Arguments Raise {A} e.

Definition bind {A B : Type} (c : result A) (k : A -> result B) : result B :=
  match c with
  | Ok a => k a
  | Raise e => Raise e
  end.

Notation "x <- c ;; k" := (bind c (fun x => k))
  (at level 61, c at next level, right associativity).

(** ** Dictionaries *)

Fixpoint dict_lookup (d : dict) (k : string) : option value :=
  match d with
  | [] => None
  | (k', v) :: d' => if (k' =? k)%string then Some v else dict_lookup d' k
  end.

(** [d[k] = v]: an existing key keeps its place. *)
Fixpoint dict_set (d : dict) (k : string) (v : value) : dict :=
  match d with
  | [] => [(k, v)]
  | (k', v') :: d' =>
      if (k' =? k)%string then (k', v) :: d' else (k', v') :: dict_set d' k v
  end.

(** [d.get(k, default)] *)
Definition dict_get (d : dict) (k : string) (default : value) : value :=
  match dict_lookup d k with
  | Some v => v
  | None => default
  end.

(** [d.values()] *)
Definition dict_values (d : dict) : list value := map snd d.

(** [o.get(k, default)] on an arbitrary object: only a dict has the method. *)
Definition py_get (o : value) (k : string) (default : value) : result value :=
  match o with
  | VDict d => Ok (dict_get d k default)
  | _ => Raise (AttributeError (type_name o) "get")
  end.

(** ** Strings

    [str.strip()] removes the characters [str.isspace] accepts from both
    ends: U+0009-000D, U+001C-0020, U+0085, U+00A0, U+1680, U+2000-200A,
    U+2028, U+2029, U+202F, U+205F and U+3000, here by their UTF-8 bytes. *)

Definition byte (c : ascii) : N := N_of_ascii c.

Definition is_space1 (a : ascii) : bool :=
  let n := byte a in
  ((9 <=? n) && (n <=? 13) || (28 <=? n) && (n <=? 32))%N.

Definition is_space2 (a b : ascii) : bool :=
  ((byte a =? 194) && ((byte b =? 133) || (byte b =? 160)))%N.

Definition is_space3 (a b c : ascii) : bool :=
  let x := byte a in
  let y := byte b in
  let z := byte c in
  ((x =? 225) && (y =? 154) && (z =? 128)
   || (x =? 226) && (y =? 128)
      && ((128 <=? z) && (z <=? 138) || (z =? 168) || (z =? 169) || (z =? 175))
   || (x =? 226) && (y =? 129) && (z =? 159)
   || (x =? 227) && (y =? 128) && (z =? 128))%N.

Fixpoint lstrip (s : string) : string :=
  match s with
  | EmptyString => EmptyString
  | String a r =>
      if is_space1 a then lstrip r
      else match r with
           | String b r2 =>
               if is_space2 a b then lstrip r2
               else match r2 with
                    | String c r3 => if is_space3 a b c then lstrip r3 else s
                    | EmptyString => s
                    end
           | EmptyString => s
           end
  end.

(** The same from the end, on the reversed bytes. *)
Fixpoint lstrip_rev (s : string) : string :=
  match s with
  | EmptyString => EmptyString
  | String c r =>
      if is_space1 c then lstrip_rev r
      else match r with
           | String b r2 =>
               if is_space2 b c then lstrip_rev r2
               else match r2 with
                    | String a r3 => if is_space3 a b c then lstrip_rev r3 else s
                    | EmptyString => s
                    end
           | EmptyString => s
           end
  end.

Definition rev_string (s : string) : string :=
  string_of_list_ascii (rev (list_ascii_of_string s)).

Definition rstrip (s : string) : string := rev_string (lstrip_rev (rev_string s)).

(** [s.strip()] *)
Definition strip (s : string) : string := rstrip (lstrip s).

(** The characters of a string, each with its continuation bytes
    (what iterating over a [str] yields). *)
Definition is_continuation (a : ascii) : bool :=
  ((128 <=? byte a) && (byte a <? 192))%N.

Fixpoint utf8_chars (s : string) : list string :=
  match s with
  | EmptyString => []
  | String a r =>
      match utf8_chars r with
      | String b c :: cs =>
          if is_continuation b then String a (String b c) :: cs
          else String a EmptyString :: String b c :: cs
      | cs => String a EmptyString :: cs
      end
  end.

(** [reversed(o)]: a list gives its items, a dict its keys, a str its
    characters, last first; nothing else is reversible. *)
Definition py_reversed (o : value) : result (list value) :=
  match o with
  | VList l => Ok (rev l)
  | VDict d => Ok (rev (map (fun kv => VStr (fst kv)) d))
  | VStr s => Ok (rev (map VStr (utf8_chars s)))
  | _ => Raise (TypeError ("'" ++ type_name o ++ "' object is not reversible"))
  end.

(** ** The regular expression [\{.*\}] with [re.S]

    [re.search] returns the leftmost match, and [.*] is greedy and crosses
    newlines: the match starts at the first opening brace and ends at the
    last closing brace after it; there is none when no closing brace
    follows the first opening one (none follows a later one either). *)

(** The longest prefix of [s] that ends in a closing brace. *)
Fixpoint upto_last_rbrace (s : string) : option string :=
  match s with
  | EmptyString => None
  | String c r =>
      match upto_last_rbrace r with
      | Some p => Some (String c p)
      | None => if (c =? "}")%char then Some (String c EmptyString) else None
      end
  end.

(** [m = re.search(r"\{.*\}", t, flags=re.S)], then [m.group(0)]. *)
Fixpoint re_search_braces (t : string) : option string :=
  match t with
  | EmptyString => None
  | String c r =>
      if (c =? "{")%char then
        match upto_last_rbrace r with
        | Some p => Some (String c p)
        | None => None
        end
      else re_search_braces r
  end.

(** ** [json.loads]

    The decoder of Python's standard library, as a scanner that cuts the
    text into tokens and a pushdown automaton over the tokens.  It accepts
    what CPython accepts, the literals [NaN], [Infinity] and [-Infinity]
    included, and builds the same values; [None] stands for a raised
    [JSONDecodeError].  Two limits of the interpreter are left out: the cap
    on the digits of an integer literal and the recursion limit on nesting
    (both raise, and the callers below treat every exception of the
    decoder alike). *)

Module Json.

Inductive token : Type :=
| TLBrace | TRBrace | TLBracket | TRBracket | TColon | TComma
| TAtom (v : value).

Definition is_digit (c : ascii) : bool :=
  ((48 <=? byte c) && (byte c <=? 57))%N.

Definition is_letter (c : ascii) : bool :=
  ((65 <=? byte c) && (byte c <=? 90) || (97 <=? byte c) && (byte c <=? 122))%N.

Definition is_json_space (c : ascii) : bool :=
  ((byte c =? 32) || (byte c =? 9) || (byte c =? 10) || (byte c =? 13))%N.

(** The characters a number literal is made of. *)
Definition is_number_char (c : ascii) : bool :=
  is_digit c || (c =? "-")%char || (c =? "+")%char || (c =? ".")%char
  || (c =? "e")%char || (c =? "E")%char.

Definition hex_digit (c : ascii) : option N :=
  let n := byte c in
  if ((48 <=? n) && (n <=? 57))%N then Some (n - 48)%N
  else if ((65 <=? n) && (n <=? 70))%N then Some (n - 55)%N
  else if ((97 <=? n) && (n <=? 102))%N then Some (n - 87)%N
  else None.

Fixpoint digits_value (acc : N) (ds : list ascii) : N :=
  match ds with
  | [] => acc
  | d :: ds' => digits_value (acc * 10 + (byte d - 48))%N ds'
  end.

Fixpoint span_digits (cs : list ascii) : list ascii * list ascii :=
  match cs with
  | c :: cs' =>
      if is_digit c then let (ds, r) := span_digits cs' in (c :: ds, r)
      else ([], cs)
  | [] => ([], [])
  end.

(** The exponent, up to the end of the literal: e or E, an optional sign
    and at least one digit. *)
Definition number_exponent (cs : list ascii) : option Z :=
  match cs with
  | [] => Some 0%Z
  | c :: cs1 =>
      if (c =? "e")%char || (c =? "E")%char then
        let (neg, cs2) :=
          match cs1 with
          | s :: cs2 =>
              if (s =? "-")%char then (true, cs2)
              else if (s =? "+")%char then (false, cs2)
              else (false, cs1)
          | [] => (false, cs1)
          end in
        match span_digits cs2 with
        | ((_ :: _) as ds, []) =>
            let e := Z.of_N (digits_value 0 ds) in
            Some (if neg then (- e)%Z else e)
        | _ => None
        end
      else None
  end.

(** A number literal: an optional minus sign, then 0 or a run of digits
    that does not start with 0, then an optional fraction (a dot and at
    least one digit) and an optional exponent.  The literal is an [int]
    without fraction and exponent, a [float] otherwise. *)
Definition number_of_literal (cs : list ascii) : option value :=
  let (neg, cs1) :=
    match cs with
    | c :: cs1 => if (c =? "-")%char then (true, cs1) else (false, cs)
    | [] => (false, cs)
    end in
  match span_digits cs1 with
  | ([], _) => None
  | ((d :: ds) as ip, r) =>
      if (d =? "0")%char && negb (match ds with [] => true | _ => false end) then None
      else
        match r with
        | [] =>
            let n := Z.of_N (digits_value 0 ip) in
            Some (VInt (if neg then (- n)%Z else n))
        | c :: r1 =>
            if (c =? ".")%char then
              match span_digits r1 with
              | ([], _) => None
              | (fp, r2) =>
                  match number_exponent r2 with
                  | Some e =>
                      Some (VFloat (FDec neg (digits_value 0 (ip ++ fp))
                                         (e - Z.of_nat (length fp))))
                  | None => None
                  end
              end
            else
              match number_exponent r with
              | Some e => Some (VFloat (FDec neg (digits_value 0 ip) e))
              | None => None
              end
        end
  end.

Definition word_of_literal (w : string) : option value :=
  if (w =? "null")%string then Some VNone
  else if (w =? "true")%string then Some (VBool true)
  else if (w =? "false")%string then Some (VBool false)
  else if (w =? "NaN")%string then Some (VFloat FNan)
  else if (w =? "Infinity")%string then Some (VFloat (FInf false))
  else if (w =? "-Infinity")%string then Some (VFloat (FInf true))
  else None.

(** The UTF-8 bytes of a code point, last byte first. *)
Definition utf8_rev (n : N) : list ascii :=
  let b (x : N) := ascii_of_N x in
  if (n <? 128)%N then [b n]
  else if (n <? 2048)%N then [b (128 + n mod 64); b (192 + n / 64)]%N
  else if (n <? 65536)%N then
    [b (128 + n mod 64); b (128 + (n / 64) mod 64); b (224 + n / 4096)]%N
  else
    [b (128 + n mod 64); b (128 + (n / 64) mod 64);
     b (128 + (n / 4096) mod 64); b (240 + n / 262144)]%N.

Definition is_high_surrogate (n : N) : bool := ((55296 <=? n) && (n <=? 56319))%N.
Definition is_low_surrogate (n : N) : bool := ((56320 <=? n) && (n <=? 57343))%N.

(** What the scanner is in the middle of.  Inside a string it holds the
    bytes read so far, last first, and the high surrogate of a [\u] escape
    that a following escape may complete. *)
Inductive lex_mode : Type :=
| LTop
| LStr (acc : list ascii) (pend : option N)
| LEsc (acc : list ascii) (pend : option N)
| LHex (k : nat) (code : N) (acc : list ascii) (pend : option N)
| LNum (acc : list ascii)
| LWord (acc : list ascii).

Definition flush (acc : list ascii) (pend : option N) : list ascii :=
  match pend with
  | Some h => utf8_rev h ++ acc
  | None => acc
  end.

(** The end of a [\uXXXX] escape with value [c]. *)
Definition end_escape (c : N) (acc : list ascii) (pend : option N) : lex_mode :=
  match pend with
  | Some h =>
      if is_low_surrogate c then
        LStr (utf8_rev (65536 + (h - 55296) * 1024 + (c - 56320))%N ++ acc) None
      else if is_high_surrogate c then LStr (utf8_rev h ++ acc) (Some c)
      else LStr (utf8_rev c ++ utf8_rev h ++ acc) None
  | None =>
      if is_high_surrogate c then LStr acc (Some c)
      else LStr (utf8_rev c ++ acc) None
  end.

Definition simple_escape (c : ascii) : option ascii :=
  if (c =? "034")%char then Some "034"%char
  else if (c =? "\")%char then Some "\"%char
  else if (c =? "/")%char then Some "/"%char
  else if (c =? "b")%char then Some "008"%char
  else if (c =? "f")%char then Some "012"%char
  else if (c =? "n")%char then Some "010"%char
  else if (c =? "r")%char then Some "013"%char
  else if (c =? "t")%char then Some "009"%char
  else None.

(** One character at the top level: between tokens. *)
Definition lex_top (c : ascii) : option (list token * lex_mode) :=
  if is_json_space c then Some ([], LTop)
  else if (c =? "{")%char then Some ([TLBrace], LTop)
  else if (c =? "}")%char then Some ([TRBrace], LTop)
  else if (c =? "[")%char then Some ([TLBracket], LTop)
  else if (c =? "]")%char then Some ([TRBracket], LTop)
  else if (c =? ":")%char then Some ([TColon], LTop)
  else if (c =? ",")%char then Some ([TComma], LTop)
  else if (c =? "034")%char then Some ([], LStr [] None)
  else if is_digit c || (c =? "-")%char then Some ([], LNum [c])
  else if is_letter c then Some ([], LWord [c])
  else None.

Definition end_number (acc : list ascii) : option token :=
  option_map TAtom (number_of_literal (rev acc)).

Definition end_word (acc : list ascii) : option token :=
  option_map TAtom (word_of_literal (string_of_list_ascii (rev acc))).

(** A finished token, then the character that ended it. *)
Definition then_top (t : option token) (c : ascii) : option (list token * lex_mode) :=
  match t, lex_top c with
  | Some t, Some (ts, m) => Some (t :: ts, m)
  | _, _ => None
  end.

Definition lex_step (m : lex_mode) (c : ascii) : option (list token * lex_mode) :=
  match m with
  | LTop => lex_top c
  | LStr acc pend =>
      if (c =? "034")%char then
        Some ([TAtom (VStr (string_of_list_ascii (rev (flush acc pend))))], LTop)
      else if (c =? "\")%char then Some ([], LEsc acc pend)
      else if (byte c <? 32)%N then None
      else Some ([], LStr (c :: flush acc pend) None)
  | LEsc acc pend =>
      if (c =? "u")%char then Some ([], LHex 4 0 acc pend)
      else match simple_escape c with
           | Some x => Some ([], LStr (x :: flush acc pend) None)
           | None => None
           end
  | LHex k code acc pend =>
      match hex_digit c with
      | Some d =>
          let code' := (code * 16 + d)%N in
          match k with
          | S (S k') => Some ([], LHex (S k') code' acc pend)
          | _ => Some ([], end_escape code' acc pend)
          end
      | None => None
      end
  | LNum acc =>
      if is_number_char c then Some ([], LNum (c :: acc))
      else if (c =? "I")%char && match acc with [m] => (m =? "-")%char | _ => false end
      then Some ([], LWord (c :: acc))
      else then_top (end_number acc) c
  | LWord acc =>
      if is_letter c then Some ([], LWord (c :: acc))
      else then_top (end_word acc) c
  end.

Definition lex_end (m : lex_mode) : option (list token) :=
  match m with
  | LTop => Some []
  | LNum acc => option_map (fun t => [t]) (end_number acc)
  | LWord acc => option_map (fun t => [t]) (end_word acc)
  | _ => None
  end.

Fixpoint lex_run (m : lex_mode) (s : string) : option (list token) :=
  match s with
  | EmptyString => lex_end m
  | String c r =>
      match lex_step m c with
      | Some (ts, m') =>
          match lex_run m' r with
          | Some ts' => Some (ts ++ ts')
          | None => None
          end
      | None => None
      end
  end.

(** The containers that are open, innermost first: an array with its items
    so far (last first), an object with its pairs so far and the key whose
    value is being read. *)
Inductive frame : Type :=
| FArr (acc : list value)
| FObj (d : dict) (k : string).

Inductive parse_state : Type :=
| ExpValue (st : list frame)
| ExpValueOrClose (st : list frame)
| ExpKeyOrClose (st : list frame)
| ExpKey (d : dict) (st : list frame)
| ExpColon (d : dict) (k : string) (st : list frame)
| Got (v : value) (st : list frame).

Definition parse_step (s : parse_state) (t : token) : option parse_state :=
  match s, t with
  | ExpValue st, TAtom v => Some (Got v st)
  | ExpValue st, TLBracket => Some (ExpValueOrClose st)
  | ExpValue st, TLBrace => Some (ExpKeyOrClose st)
  | ExpValueOrClose st, TRBracket => Some (Got (VList []) st)
  | ExpValueOrClose st, TAtom v => Some (Got v (FArr [] :: st))
  | ExpValueOrClose st, TLBracket => Some (ExpValueOrClose (FArr [] :: st))
  | ExpValueOrClose st, TLBrace => Some (ExpKeyOrClose (FArr [] :: st))
  | ExpKeyOrClose st, TRBrace => Some (Got (VDict []) st)
  | ExpKeyOrClose st, TAtom (VStr k) => Some (ExpColon [] k st)
  | ExpKey d st, TAtom (VStr k) => Some (ExpColon d k st)
  | ExpColon d k st, TColon => Some (ExpValue (FObj d k :: st))
  | Got v (FArr acc :: st), TComma => Some (ExpValue (FArr (v :: acc) :: st))
  | Got v (FArr acc :: st), TRBracket => Some (Got (VList (rev (v :: acc))) st)
  | Got v (FObj d k :: st), TComma => Some (ExpKey (dict_set d k v) st)
  | Got v (FObj d k :: st), TRBrace => Some (Got (VDict (dict_set d k v)) st)
  | _, _ => None
  end.

Fixpoint parse_run (s : parse_state) (ts : list token) : option value :=
  match ts with
  | [] => match s with Got v [] => Some v | _ => None end
  | t :: ts' =>
      match parse_step s t with
      | Some s' => parse_run s' ts'
      | None => None
      end
  end.

(** [json.loads(s)]: [Some v] when it returns [v], [None] when it raises. *)
Definition loads (s : string) : option value :=
  match lex_run LTop s with
  | Some ts => parse_run (ExpValue []) ts
  | None => None
  end.

End Json.

(** ** The Flowise helpers (ui.py, lines 153-206) *)

(** [o.strip()]: a method of [str] only. *)
Definition py_strip (o : value) : result string :=
  match o with
  | VStr s => Ok (strip s)
  | _ => Raise (AttributeError (type_name o) "strip")
  end.

(** [_extract_json_anywhere(text)]: the direct parse of the trimmed text,
    else the parse of its brace span, else [None] (here [VNone], which is
    also what the text [null] parses to). *)
Definition _extract_json_anywhere (text : value) : result value :=
  t <- py_strip (py_or text (VStr "")) ;;
  if (t =? "")%string then Ok VNone
  else
    match Json.loads t with
    | Some v => Ok v
    | None =>
        match re_search_braces t with
        | Some span =>
            match Json.loads span with
            | Some v => Ok v
            | None => Ok VNone
            end
        | None => Ok VNone
        end
    end.

(** The loops of [extract_json_from_flowise_response] give [Ok (Some v)]
    when their body returns [v], and [Ok None] when they run to their end. *)

(** [for v in out.values(): if isinstance(v, str): ...] (lines 181-185). *)
Fixpoint loop_values (vs : list value) : result (option value) :=
  match vs with
  | [] => Ok None
  | v :: vs' =>
      if is_str v then
        parsed <- _extract_json_anywhere v ;;
        if truthy parsed then Ok (Some parsed) else loop_values vs'
      else loop_values vs'
  end.

(** The body of [for node in reversed(executed)] (lines 175-185). *)
Definition loop_body (node : value) : result (option value) :=
  d <- py_get node "data" VNone ;;
  let node_data := py_or d (VDict []) in
  o <- py_get node_data "output" VNone ;;
  let out := py_or o (VDict []) in
  match out with
  | VDict od =>
      parsed <- _extract_json_anywhere (dict_get od "content" (VStr "")) ;;
      if truthy parsed then Ok (Some parsed) else loop_values (dict_values od)
  | _ => Ok None
  end.

Fixpoint loop_nodes (nodes : list value) : result (option value) :=
  match nodes with
  | [] => Ok None
  | node :: rest =>
      r <- loop_body node ;;
      match r with
      | Some v => Ok (Some v)
      | None => loop_nodes rest
      end
  end.

Definition no_json_message : string :=
  "Flowise response did not contain JSON. Ensure your final node returns JSON-only in the output.".

(** [extract_json_from_flowise_response(resp)] *)
Definition extract_json_from_flowise_response (resp : value) : result value :=
  text <- py_get resp "text" (VStr "") ;;
  parsed <- _extract_json_anywhere text ;;
  if truthy parsed then Ok parsed
  else
    e <- py_get resp "agentFlowExecutedData" VNone ;;
    let executed := py_or e (VList []) in
    nodes <- py_reversed executed ;;
    r <- loop_nodes nodes ;;
    match r with
    | Some v => Ok v
    | None => Raise (RuntimeError no_json_message)
    end.

(** *** The probing order, as the specification words it

    The places the extractor looks at, in the order it looks at them: the
    top-level text, then the trace entries from the last to the first, and
    within an entry the [content] of its output, then every string of the
    output in the mapping's order.  An entry that is no mapping, or whose
    [data] is no mapping, ends the probing with an [AttributeError]. *)

Inductive probe : Type :=
| Try (candidate : value)
| Crash (e : exn).

Definition entry_probes (node : value) : list probe :=
  match node with
  | VDict nd =>
      match py_or (dict_get nd "data" VNone) (VDict []) with
      | VDict dd =>
          match py_or (dict_get dd "output" VNone) (VDict []) with
          | VDict od =>
              Try (dict_get od "content" (VStr ""))
              :: map Try (filter is_str (dict_values od))
          | _ => []
          end
      | other => [Crash (AttributeError (type_name other) "get")]
      end
  | other => [Crash (AttributeError (type_name other) "get")]
  end.

Definition trace_probes (executed : value) : list probe :=
  match py_reversed executed with
  | Ok nodes => flat_map entry_probes nodes
  | Raise e => [Crash e]
  end.

Definition response_probes (resp : dict) : list probe :=
  Try (dict_get resp "text" (VStr ""))
  :: trace_probes (py_or (dict_get resp "agentFlowExecutedData" VNone) (VList [])).

(** The first probe, in order, whose parse-then-salvage result is truthy. *)
Fixpoint first_hit (ps : list probe) : result (option value) :=
  match ps with
  | [] => Ok None
  | Crash e :: _ => Raise e
  | Try c :: rest =>
      parsed <- _extract_json_anywhere c ;;
      if truthy parsed then Ok (Some parsed) else first_hit rest
  end.

Definition first_hit_or_raise (ps : list probe) : result value :=
  r <- first_hit ps ;;
  match r with
  | Some v => Ok v
  | None => Raise (RuntimeError no_json_message)
  end.

(** ** The surroundings of the module

    What ui.py reads from outside itself: the three settings taken from
    the environment (lines 117-119), the session identifier and the debug
    checkbox of the page, the network behind [requests.post], and the
    printing functions of Python that are left abstract here ([repr] of a
    string and of a float, and [json.dumps] with [indent=2]). *)

Record request : Type := mk_request {
  req_url : string;
  req_json : dict;
  req_headers : list (string * string);
  req_timeout : Z
}.

(** A response, by what its two methods do. *)
Record response : Type := mk_response {
  raise_for_status : result unit;
  json : result value
}.

Record runtime : Type := mk_runtime {
  FLOWISE_BASE_URL : string;
  FLOWISE_CHATFLOW_ID : string;
  FLOWISE_API_KEY : string;
  session_sid : string;
  show_debug : bool;
  requests_post : request -> result response;
  repr_str : string -> string;
  repr_float : pyfloat -> string;
  json_dumps : value -> string
}.

Definition nl : string := String (ascii_of_nat 10) EmptyString.
Definition dq : string := String (ascii_of_nat 34) EmptyString.

(** [call_flowise(question, extra)] (lines 189-206): the requests sent, and
    the pair [(data, raw)] or the exception raised. *)
Definition call_flowise (E : runtime) (question : string) (extra : option dict)
  : list request * result (value * value) :=
  if (FLOWISE_CHATFLOW_ID E =? "")%string then
    ([], Raise (RuntimeError "FLOWISE_CHATFLOW_ID is missing. Add it to .env"))
  else
    let url := (FLOWISE_BASE_URL E ++ "/api/v1/prediction/" ++ FLOWISE_CHATFLOW_ID E)%string in
    let payload := [("question", VStr question); ("sessionId", VStr (session_sid E))] in
    let payload :=
      match extra with
      | Some x => if truthy (VDict x) then dict_set payload "overrideConfig" (VDict x) else payload
      | None => payload
      end in
    let headers := [("Content-Type", "application/json")] in
    let headers :=
      if negb (FLOWISE_API_KEY E =? "")%string
      then headers ++ [("Authorization", ("Bearer " ++ FLOWISE_API_KEY E)%string)]
      else headers in
    let req := mk_request url payload headers 180 in
    ([req],
     r <- requests_post E req ;;
     _ <- raise_for_status r ;;
     raw <- json r ;;
     data <- extract_json_from_flowise_response raw ;;
     Ok (data, raw)).

(** ** Rendering (lines 211-265) *)

(** [repr(v)]: the text, when the conversion goes through (the cap of the
    interpreter on the digits of an integer comes below). *)
Fixpoint py_repr (E : runtime) (v : value) : string :=
  match v with
  | VNone => "None"
  | VBool true => "True"
  | VBool false => "False"
  | VInt z => NilZero.string_of_int (Z.to_int z)
  | VFloat f => repr_float E f
  | VStr s => repr_str E s
  | VList l => "[" ++ String.concat ", " (map (py_repr E) l) ++ "]"
  | VDict d =>
      "{" ++ String.concat ", "
               (map (fun kv => match kv with
                               | (k, x) => repr_str E k ++ ": " ++ py_repr E x
                               end) d) ++ "}"
  end%string.

(** [str(v)], which is also how a format field and an f-string show [v]. *)
Definition py_str (E : runtime) (v : value) : string :=
  match v with
  | VStr s => s
  | _ => py_repr E v
  end.

(** [v == s] for a string literal [s] *)
Definition py_eq_str (v : value) (s : string) : bool :=
  match v with
  | VStr x => (x =? s)%string
  | _ => false
  end.

(** The calls made on Streamlit, in order. *)
Inductive element : Type :=
| StMarkdown (body : string) (unsafe_allow_html : bool)
| StWarning (body : string)
| StError (body : string)
| StSpinner (text : string)
| StExpander (label : string) (children : list element)
| StCode (body : string).

(** [html_block.format(...)] (lines 226-252) *)
Definition html_block (pill_class urgency authority assessment_block authority_block : string)
  : string :=
  (nl
  ++ "    <div class=" ++ dq ++ "card" ++ dq ++ ">" ++ nl
  ++ "      <div class=" ++ dq ++ "kpi" ++ dq ++ ">" ++ nl
  ++ "        <div class=" ++ dq ++ "pill " ++ pill_class ++ dq ++ ">Urgency: " ++ urgency ++ "</div>" ++ nl
  ++ "        <div class=" ++ dq ++ "pill" ++ dq ++ ">Recommended authority: " ++ authority ++ "</div>" ++ nl
  ++ "      </div>" ++ nl
  ++ "      <hr/>" ++ nl
  ++ "      <div class=" ++ dq ++ "section-title" ++ dq ++ ">Assessment</div>" ++ nl
  ++ "      " ++ assessment_block ++ nl
  ++ "      <hr/>" ++ nl
  ++ "      <div class=" ++ dq ++ "section-title" ++ dq ++ ">Who to contact</div>" ++ nl
  ++ "      " ++ authority_block ++ nl
  ++ "      <hr/>" ++ nl
  ++ "      <div class=" ++ dq ++ "section-title" ++ dq ++ ">What to do now</div>" ++ nl
  ++ "    </div>" ++ nl
  ++ "    ")%string.

(** ["\n".join([f"- {s}" for s in items])] *)
Definition bullets (E : runtime) (items : list value) : string :=
  String.concat nl (map (fun s => ("- " ++ py_str E s)%string) items).

(** The items of a list (of anything else, none). *)
Definition list_items (x : value) : list value :=
  match x with
  | VList l => l
  | _ => []
  end.

Definition no_assessment : string := "<span class='small'>(No assessment)</span>".
Definition not_enough_info : string := "<span class='small'>(Not enough info)</span>".

(** [render_decision(data)]: the mapping as the call leaves it, with the
    calls made on Streamlit; an exception when [data] has no [get]. *)
Definition render_decision (E : runtime) (data : value) : result (value * list element) :=
  urgency <- py_get data "urgency_level" (VStr "Normal") ;;
  authority <- py_get data "recommended_authority" (VStr "Other") ;;
  authority_details <- py_get data "recommended_authority_details" (VStr "") ;;
  assessment <- py_get data "assessment" (VStr "") ;;
  next_steps <- py_get data "next_steps" (VList []) ;;
  details_to_prepare <- py_get data "details_to_prepare" (VList []) ;;
  questions <- py_get data "questions_if_missing" (VList []) ;;
  let pill_class :=
    if py_eq_str urgency "Emergency" then "danger"
    else if py_eq_str urgency "High" then "warn"
    else "ok" in
  let assessment_block :=
    if truthy assessment then assessment else VStr no_assessment in
  let authority_block :=
    if truthy authority_details then authority_details else VStr not_enough_info in
  let html :=
    html_block pill_class (py_str E urgency) (py_str E authority)
               (py_str E assessment_block) (py_str E authority_block) in
  Ok (data,
      [StMarkdown html true]
      ++ (if is_list next_steps && truthy next_steps
          then [StMarkdown (bullets E (list_items next_steps)) false]
          else [])
      ++ [StMarkdown "**What details to prepare**" false]
      ++ (if is_list details_to_prepare && truthy details_to_prepare
          then [StMarkdown (bullets E (list_items details_to_prepare)) false]
          else [])
      ++ (if is_list questions && truthy questions
          then [StMarkdown "**Quick questions (if needed)**" false;
                StMarkdown (bullets E (list_items questions)) false]
          else [])).

(** *** The cap on the digits of an integer

    Since CPython 3.11 (and the releases from 3.10.7 on) the conversion of
    an integer to text raises [ValueError] when the integer has more
    decimal digits than [sys.get_int_max_str_digits()]: 4300 unless set
    otherwise, 0 for no cap.  [py_repr] and [py_str] give the text of a
    value whose conversion goes through, and [render_decision] above is the
    rendering with no cap; what follows says when a conversion goes
    through, and renders under a cap. *)


(** The integer [z] has more than [cap] decimal digits, a cap being set. *)
Definition int_over_cap (cap : N) (z : Z) : bool :=
  negb (cap =? 0)%N && (10 ^ Z.of_N cap <=? Z.abs z)%Z.

(** The conversion of [v] meets an integer over the cap: [v] itself or,
    since a list and a mapping are printed through the [repr] of what they
    hold, one inside it. *)
Fixpoint over_cap (cap : N) (v : value) : bool :=
  match v with
  | VInt z => int_over_cap cap z
  | VList l => existsb (over_cap cap) l
  | VDict d => existsb (fun kv => match kv with (_, x) => over_cap cap x end) d
  | _ => false
  end.

Definition over_cap_message (cap : N) : string :=
  ("Exceeds the limit (" ++ NilZero.string_of_uint (N.to_uint cap)
   ++ " digits) for integer string conversion; "
   ++ "use sys.set_int_max_str_digits() to increase the limit")%string.

(** [str(v)] under the cap *)
Definition str_capped (cap : N) (E : runtime) (v : value) : result string :=
  if over_cap cap v then Raise (ValueError (over_cap_message cap))
  else Ok (py_str E v).

(** [[f"- {s}" for s in items]] under the cap: the items are converted in
    order. *)
Fixpoint bullet_lines (cap : N) (E : runtime) (items : list value) : result (list string) :=
  match items with
  | [] => Ok []
  | s :: rest =>
      line <- str_capped cap E s ;;
      lines <- bullet_lines cap E rest ;;
      Ok (("- " ++ line)%string :: lines)
  end.

Definition bullets_capped (cap : N) (E : runtime) (items : list value) : result string :=
  lines <- bullet_lines cap E items ;;
  Ok (String.concat nl lines).

(** A stretch of the rendering: what it has shown by its end, and its
    value or the exception that ended it. *)
Definition showing (A : Type) : Type := (list element * result A)%type.

Definition quiet {A : Type} (r : result A) : showing A := ([], r).

Definition show (e : element) : showing unit := ([e], Ok tt).

Definition and_then {A B : Type} (c : showing A) (k : A -> showing B) : showing B :=
  match c with
  | (els, Ok a) => let (els', r) := k a in (els ++ els', r)
  | (els, Raise e) => (els, Raise e)
  end.

Notation "x <~ c ;; k" := (and_then c (fun x => k))
  (at level 61, c at next level, right associativity).

(** [render_decision(data)] under the cap: what is shown, and the mapping
    as the call leaves it or the exception that ends the call.  The card is
    shown once its fields are converted; each list is converted before it
    is shown, the heading of the questions being shown before the
    questions are converted. *)
Definition render_decision_capped (cap : N) (E : runtime) (data : value) : showing value :=
  urgency <~ quiet (py_get data "urgency_level" (VStr "Normal")) ;;
  authority <~ quiet (py_get data "recommended_authority" (VStr "Other")) ;;
  authority_details <~ quiet (py_get data "recommended_authority_details" (VStr "")) ;;
  assessment <~ quiet (py_get data "assessment" (VStr "")) ;;
  next_steps <~ quiet (py_get data "next_steps" (VList [])) ;;
  details_to_prepare <~ quiet (py_get data "details_to_prepare" (VList [])) ;;
  questions <~ quiet (py_get data "questions_if_missing" (VList [])) ;;
  let pill_class :=
    if py_eq_str urgency "Emergency" then "danger"
    else if py_eq_str urgency "High" then "warn"
    else "ok" in
  let assessment_block :=
    if truthy assessment then assessment else VStr no_assessment in
  let authority_block :=
    if truthy authority_details then authority_details else VStr not_enough_info in
  html <~ quiet (u <- str_capped cap E urgency ;;
                 a <- str_capped cap E authority ;;
                 ab <- str_capped cap E assessment_block ;;
                 ub <- str_capped cap E authority_block ;;
                 Ok (html_block pill_class u a ab ub)) ;;
  _ <~ show (StMarkdown html true) ;;
  _ <~ (if is_list next_steps && truthy next_steps
        then b <~ quiet (bullets_capped cap E (list_items next_steps)) ;;
             show (StMarkdown b false)
        else quiet (Ok tt)) ;;
  _ <~ show (StMarkdown "**What details to prepare**" false) ;;
  _ <~ (if is_list details_to_prepare && truthy details_to_prepare
        then b <~ quiet (bullets_capped cap E (list_items details_to_prepare)) ;;
             show (StMarkdown b false)
        else quiet (Ok tt)) ;;
  _ <~ (if is_list questions && truthy questions
        then _ <~ show (StMarkdown "**Quick questions (if needed)**" false) ;;
             b <~ quiet (bullets_capped cap E (list_items questions)) ;;
             show (StMarkdown b false)
        else quiet (Ok tt)) ;;
  quiet (Ok data).

(** ** The submit handlers (lines 350-395 and 452-501) *)

(** How a run of the script ends: at its last line, at [st.stop()], or on
    an exception nobody catches. *)
Inductive run_end : Type :=
| Completed
| Stopped
| Uncaught (e : exn).

Record run : Type := mk_run {
  sent : list request;
  shown : list element;
  ended : run_end
}.

(** The options of the category select box (line 364). *)
Inductive category : Type :=
| AutoDetect | TownCouncil | Police | Emergency | GeneralUnsure.

Definition category_label (c : category) : string :=
  match c with
  | AutoDetect => "Auto-detect"
  | TownCouncil => "Town Council"
  | Police => "Police"
  | Emergency => "Emergency"
  | GeneralUnsure => "General/Unsure"
  end.

(** The question of the report form (lines 374-378). *)
Definition report_question (issue_text location : string) (issue_category : category)
  : string :=
  (issue_text ++ nl
   ++ "Location: " ++ location ++ nl
   ++ "Category: " ++ category_label issue_category)%string.

(** What follows a call of [call_flowise] in both handlers: the error and
    [st.stop()], or the heading, the decision and the debug view. *)
Definition show_result (E : runtime) (called : list request * result (value * value))
  : run :=
  let spinner := StSpinner "Sending to Flowise for analysis…" in
  match called with
  | (reqs, Raise e) =>
      mk_run reqs [spinner; StError ("Flowise call failed: " ++ exn_msg e)%string] Stopped
  | (reqs, Ok (data, raw)) =>
      let heading := StMarkdown "### ✅ Recommendation" false in
      match render_decision E data with
      | Raise e => mk_run reqs [spinner; heading] (Uncaught e)
      | Ok (_, els) =>
          mk_run reqs
            ([spinner; heading] ++ els
             ++ if show_debug E
                then [StExpander "🧪 Raw Flowise response (debug)" [StCode (json_dumps E raw)]]
                else [])
            Completed
      end
  end.

(** The report tab once the form is submitted (lines 370-395). *)
Definition report_submit (E : runtime) (issue_text location : string)
  (issue_category : category) : run :=
  if (strip issue_text =? "")%string then
    mk_run [] [StWarning "Please enter a short issue description."] Completed
  else
    let question := report_question issue_text location issue_category in
    show_result E
      (call_flowise E question
         (Some [("location", VStr location);
                ("issue_category", VStr (category_label issue_category))])).

(** The scenarios of the evaluation tab (lines 454-471). *)
Record scenario : Type := mk_scenario { issue : string; scenario_location : string }.

Definition scenarios : list (string * scenario) :=
  [("Lift breakdown (Town Council)",
    mk_scenario "The lift at Blk 210 has been down since yesterday. Elderly residents cannot go downstairs."
                "Tampines, Blk 210");
   ("Suspected theft (Police)",
    mk_scenario "My bicycle was stolen from the void deck bicycle rack. There is CCTV nearby."
                "Bedok, Blk 123");
   ("Fire / smoke smell (Emergency)",
    mk_scenario "Strong smoke smell coming from a unit and people are coughing in the corridor."
                "Jurong West, Blk 45");
   ("Unsure / general query",
    mk_scenario "Where can I report repeated loud noise late at night in my block?"
                "Sengkang, Blk 88")].

(** The question of an evaluation run (lines 484-487). *)
Definition eval_question (s : scenario) : string :=
  strip (String.concat nl [issue s; ("Location: " ++ scenario_location s)%string]).

(** The evaluation tab once the run button is pressed (lines 483-501). *)
Definition eval_run (E : runtime) (s : scenario) : run :=
  show_result E
    (call_flowise E (eval_question s) (Some [("location", VStr (scenario_location s))])).

(** ** Auxiliary notions, and the examples of the development *)

Import Json.

(** The character [c] occurs in [s]. *)
Fixpoint has_char (c : ascii) (s : string) : bool :=
  match s with
  | EmptyString => false
  | String x r => (x =? c)%char || has_char c r
  end.

(** The states from which only a truthy value can come out: a container
    that holds something is open, or the value is read and truthy. *)
Definition truthy_bound (s : parse_state) : bool :=
  match s with
  | Got v [] => truthy v
  | ExpValue [] | ExpValueOrClose [] | ExpKeyOrClose [] => false
  | _ => true
  end.

Definition all_space (s : string) : bool :=
  forallb is_json_space (list_ascii_of_string s).

(** The scanner is inside a string of which it has read something. *)
Definition in_text (m : lex_mode) : bool :=
  match m with
  | LStr (_ :: _) _ | LEsc (_ :: _) _ | LHex _ _ (_ :: _) _ => true
  | _ => false
  end.

Definition brace_or_text (ts : list token) : Prop :=
  In TLBrace ts \/ exists x, In (TAtom (VStr x)) ts /\ x <> "".

(** A probe that misses: its candidate is read without error, and what is
    read is falsy ([None] when nothing parses). *)
Definition misses (p : probe) : Prop :=
  exists c v, p = Try c /\ _extract_json_anywhere c = Ok v /\ truthy v = false.

Definition quoted (s : string) : string := (dq ++ s ++ dq)%string.

(** The text [{"a": 1}] and what it parses to. *)
Definition object_a_text : string := ("{" ++ quoted "a" ++ ": 1}")%string.
Definition object_a : value := VDict [("a", VInt 1)].

(** A trace entry whose output holds [content]. *)
Definition trace_entry (content : string) : value :=
  VDict [("data", VDict [("output", VDict [("content", VStr content)])])].

(** The text [{"b": 2}] and what it parses to. *)
Definition object_b_text : string := ("{" ++ quoted "b" ++ ": 2}")%string.
Definition object_b : value := VDict [("b", VInt 2)].

(** A response whose text is the empty object, with a trace. *)
Definition empty_object_response : dict :=
  [("text", VStr "{}");
   ("agentFlowExecutedData", VList [trace_entry object_a_text])].

(** A response without JSON in its text, whose last trace entry holds the
    empty object and whose first one holds [{"a": 1}]. *)
Definition falsy_last_entry_response : dict :=
  [("text", VStr "see the trace");
   ("agentFlowExecutedData", VList [trace_entry object_a_text; trace_entry "{}"])].

(** A response whose two trace entries both hold an object. *)
Definition two_entries_response : dict :=
  [("text", VStr "see the trace");
   ("agentFlowExecutedData",
    VList [trace_entry object_a_text; trace_entry ("Final: " ++ object_b_text)%string])].

(** A response that holds no JSON at all. *)
Definition refusal_response : dict := [("text", VStr "I cannot help with that.")].

(** Prose around one object, and prose around two. *)
Definition prose_text : string :=
  ("Sure! Here is the answer: " ++ object_a_text ++ " Hope it helps.")%string.
Definition two_objects_text : string :=
  ("Options: " ++ object_a_text ++ " or " ++ object_b_text ++ ".")%string.

(** A runtime for the examples: the default settings of the module, no
    API key, and a network that answers every request with [body].  Its
    printing functions are stand-ins, exact on plain strings. *)
Definition demo_runtime (flow_id : string) (body : result value) : runtime :=
  mk_runtime "https://cloud.flowiseai.com" flow_id "" "session-1" false
    (fun _ => Ok (mk_response (Ok tt) body))
    (fun s => ("'" ++ s ++ "'")%string) (fun _ => "nan") (fun _ => "null").

Definition demo_flow_id : string := "28bddf08-01dc-4472-aa7f-e6f7e2c0297f".

(** The input of the end-to-end scenario. *)
Definition lift_text : string := "The lift at Blk 210 has been down since yesterday.".
Definition lift_location : string := "Tampines, Blk 210".

(** The [question] field of each request sent. *)
Definition questions_sent (r : run) : list (option value) :=
  map (fun q => dict_lookup (req_json q) "question") (sent r).

(** A closed equation, by running both sides. *)
Ltac computed := vm_compute; reflexivity.

(** ** The chat tab (lines 400-447)

    A turn of the conversation, as the session keeps it. *)
Record message : Type := mk_message { role : string; content : string }.

(** What the tab shows: the caption, the bubbles of the conversation, and
    plain elements (the spinner, the debug view). *)
Inductive chat_block : Type :=
| ChatCaption (text : string)
| ChatMessage (role : string) (body : element)
| ChatElement (e : element).

(** A run of the chat tab: the requests sent, what is shown, how the run
    ends, and the conversation as the run leaves it in the session. *)
Record chat_run : Type := mk_chat_run {
  chat_sent : list request;
  chat_shown : list chat_block;
  chat_ended : run_end;
  chat_messages : list message
}.

Definition chat_caption : string :=
  "Ask questions like: “Who should I contact for lift breakdown in Tampines?” or “How do I report a scam?”".

(** The answer in Markdown (lines 423-439). *)
Definition chat_pretty (E : runtime) (data : value) : result string :=
  urgency <- py_get data "urgency_level" (VStr "Normal") ;;
  authority <- py_get data "recommended_authority" (VStr "Other") ;;
  assessment <- py_get data "assessment" (VStr "") ;;
  let pretty :=
    ("**Urgency:** " ++ py_str E urgency ++ nl ++ nl
     ++ "**Recommended authority:** " ++ py_str E authority ++ nl ++ nl
     ++ "**Assessment:** " ++ py_str E assessment ++ nl ++ nl
     ++ "**Next steps:**" ++ nl)%string in
  steps <- py_get data "next_steps" (VList []) ;;
  let pretty :=
    if is_list steps && truthy steps
    then (pretty ++ bullets E (list_items steps))%string
    else (pretty ++ "- (No steps returned)")%string in
  details <- py_get data "recommended_authority_details" (VStr "") ;;
  let pretty :=
    if truthy details
    then (pretty ++ nl ++ nl ++ "**Who to contact:** " ++ py_str E details)%string
    else pretty in
  Ok pretty.

(** The bubbles of the conversation so far (lines 403-405). *)
Definition replay (history : list message) : list chat_block :=
  map (fun m => ChatMessage (role m) (StMarkdown (content m) false)) history.

(** The chat tab, with the conversation [history] in the session and
    [user_msg] from the input box ([None] when nothing was sent). *)
Definition chat_tab (E : runtime) (history : list message) (user_msg : option string)
  : chat_run :=
  let before := ChatCaption chat_caption :: replay history in
  match user_msg with
  | Some (String a m) =>
      let msg := String a m in
      let history1 := history ++ [mk_message "user" msg] in
      let shown1 :=
        before ++ [ChatMessage "user" (StMarkdown msg false);
                   ChatElement (StSpinner "Sending to Flowise…")] in
      match call_flowise E msg None with
      | (reqs, Raise e) =>
          let failed := ("Flowise call failed: " ++ exn_msg e)%string in
          mk_chat_run reqs
            (shown1 ++ [ChatMessage "assistant" (StError failed)])
            Stopped
            (history1 ++ [mk_message "assistant" failed])
      | (reqs, Ok (data, raw)) =>
          match chat_pretty E data with
          | Raise e => mk_chat_run reqs shown1 (Uncaught e) history1
          | Ok pretty =>
              mk_chat_run reqs
                (shown1 ++ [ChatMessage "assistant" (StMarkdown pretty false)]
                 ++ if show_debug E
                    then [ChatElement
                            (StExpander "🧪 Raw Flowise response (debug)"
                                        [StCode (json_dumps E raw)])]
                    else [])
                Completed
                (history1 ++ [mk_message "assistant" pretty])
          end
      end
  | _ => mk_chat_run [] before Completed history
  end.

(** ** Settings, session and sidebar (lines 115-148) *)

(** [os.getenv(name, default)]: the default stands in for a variable that
    is not set, not for one that is set to the empty string. *)
Definition getenv (env : string -> option string) (name default : string) : string :=
  match env name with
  | Some v => v
  | None => default
  end.

Fixpoint drop_slashes (s : string) : string :=
  match s with
  | String c r => if (c =? "/")%char then drop_slashes r else s
  | EmptyString => EmptyString
  end.

(** [s.rstrip("/")] *)
Definition rstrip_slashes (s : string) : string :=
  rev_string (drop_slashes (rev_string s)).

Definition default_base_url : string := "https://cloud.flowiseai.com".
Definition default_chatflow_id : string := "28bddf08-01dc-4472-aa7f-e6f7e2c0297f".

(** The three settings as the module reads them from the environment
    (lines 117-119), put into a runtime. *)
Definition load_settings (env : string -> option string) (E : runtime) : runtime :=
  mk_runtime
    (rstrip_slashes (getenv env "FLOWISE_BASE_URL" default_base_url))
    (getenv env "FLOWISE_CHATFLOW_ID" default_chatflow_id)
    (getenv env "FLOWISE_API_KEY" "")
    (session_sid E) (show_debug E) (requests_post E)
    (repr_str E) (repr_float E) (json_dumps E).

(** What the session holds: each entry is there or not yet. *)
Record session_state : Type := mk_session {
  ss_chat_messages : option (list message);
  ss_sid : option string
}.

(** Lines 124-127, with [uuid] for [str(uuid.uuid4())]: an entry that is
    there is kept. *)
Definition init_session (ss : session_state) (uuid : string) : list message * string :=
  (match ss_chat_messages ss with Some h => h | None => [] end,
   match ss_sid ss with Some s => s | None => uuid end).

Definition with_sid (E : runtime) (sid : string) : runtime :=
  mk_runtime (FLOWISE_BASE_URL E) (FLOWISE_CHATFLOW_ID E) (FLOWISE_API_KEY E)
    sid (show_debug E) (requests_post E) (repr_str E) (repr_float E) (json_dumps E).

(** What the user did that caused a run of the script: the fields of the
    report form when it was submitted, the message of the chat box when one
    was sent, the scenario selected in the evaluation tab, and whether its
    run button was pressed. *)
Record inputs : Type := mk_inputs {
  in_report : option (string * string * category);
  in_chat : option string;
  in_selected : string;
  in_run : bool
}.

(** A run of the script: the runs of the handlers it reached, tab by tab,
    and how it ended. *)
Record script_run : Type := mk_script_run {
  report_part : option run;
  chat_part : option chat_run;
  eval_part : option run;
  script_ended : run_end
}.

Definition KeyError (key_repr : string) : exn := mk_exn "KeyError" key_repr.

(** [scenarios[selected]] (line 474) *)
Definition scenario_named (name : string) : option scenario :=
  match find (fun p => (fst p =? name)%string) scenarios with
  | Some p => Some (snd p)
  | None => None
  end.

Definition completed (e : run_end) : bool :=
  match e with
  | Completed => true
  | _ => false
  end.

Definition part_ended (r : option run) : run_end :=
  match r with
  | Some x => ended x
  | None => Completed
  end.

(** One run of the script in the session [ss], with [uuid] for the draw of
    [uuid.uuid4()]: the session is set up (lines 124-127), then come the
    report tab (lines 350-395), the chat tab (lines 400-447) and the
    evaluation tab (lines 452-501).  [st.stop()] and an exception nobody
    catches end the script where they occur: the tabs after that are not
    reached.  Only the chat tab writes to the session. *)
Definition script (E : runtime) (uuid : string) (ss : session_state) (i : inputs)
  : session_state * script_run :=
  let (h, sid) := init_session ss uuid in
  let E := with_sid E sid in
  let report :=
    match in_report i with
    | Some (issue_text, location, issue_category) =>
        Some (report_submit E issue_text location issue_category)
    | None => None
    end in
  if negb (completed (part_ended report)) then
    (mk_session (Some h) (Some sid), mk_script_run report None None (part_ended report))
  else
    let chat := chat_tab E h (in_chat i) in
    let ss1 := mk_session (Some (chat_messages chat)) (Some sid) in
    if negb (completed (chat_ended chat)) then
      (ss1, mk_script_run report (Some chat) None (chat_ended chat))
    else
      match scenario_named (in_selected i) with
      | None =>
          (ss1, mk_script_run report (Some chat) None
                  (Uncaught (KeyError (repr_str E (in_selected i)))))
      | Some s =>
          let evaluation := if in_run i then Some (eval_run E s) else None in
          (ss1, mk_script_run report (Some chat) evaluation (part_ended evaluation))
      end.

(** The requests of a run of the script, in the order they were sent. *)
Definition script_sent (r : script_run) : list request :=
  match report_part r with Some x => sent x | None => [] end
  ++ match chat_part r with Some x => chat_sent x | None => [] end
  ++ match eval_part r with Some x => sent x | None => [] end.

(** Runs one after the other, each with the network of its time, its draw
    of a UUID and its inputs. *)
Fixpoint session_runs (ss : session_state)
  (steps : list (runtime * string * inputs)) : session_state * list script_run :=
  match steps with
  | [] => (ss, [])
  | (E, uuid, i) :: rest =>
      let (ss1, r) := script E uuid ss i in
      let (ss2, rs) := session_runs ss1 rest in
      (ss2, r :: rs)
  end.

(** The first [n] characters of a string, and the last [n] ([s[:n]] and
    [s[-n:]] for a positive [n]). *)
Definition str_prefix (n : nat) (s : string) : string :=
  String.concat "" (firstn n (utf8_chars s)).

Definition str_suffix (n : nat) (s : string) : string :=
  let cs := utf8_chars s in
  String.concat "" (skipn (length cs - n) cs).

Inductive side_item : Type :=
| SideHeader (text : string)
| SideCheckbox (label : string) (checked : bool)
| SideMarkdown (body : string)
| SideSubheader (text : string)
| SideCaption (text : string).

(** The sidebar (lines 132-148). *)
Definition sidebar (E : runtime) : list side_item :=
  [SideHeader "⚙️ Controls";
   SideCheckbox "Show debug payload" (show_debug E);
   SideMarkdown "---";
   SideSubheader "🔗 Flowise Cloud";
   SideCaption ("Base URL: " ++ FLOWISE_BASE_URL E);
   SideCaption
     (if negb (FLOWISE_CHATFLOW_ID E =? "")%string
      then ("Chatflow ID: " ++ str_prefix 8 (FLOWISE_CHATFLOW_ID E) ++ "…"
            ++ str_suffix 6 (FLOWISE_CHATFLOW_ID E))%string
      else "Chatflow ID: (not set)");
   SideCaption
     (if negb (FLOWISE_API_KEY E =? "")%string
      then "Auth: ✅ API key set"
      else "Auth: ⚠️ No API key in .env");
   SideMarkdown "---";
   SideSubheader "🚨 Emergency";
   SideCaption "If there is immediate danger, call **995 (SCDF)** or **999 (Police)**.";
   SideMarkdown "---";
   SideSubheader "🛡 Responsible AI";
   SideCaption "This is a decision-support prototype. It does **not** file reports to agencies. Verify urgent cases with official channels."].

(** ** Further notions for the properties of the handlers, the chat tab
    and the settings *)

(** The values [render_decision] converts to text for a mapping, in the
    order it converts them. *)
Definition printed (data : dict) : list value :=
  let assessment := dict_get data "assessment" (VStr "") in
  let authority_details := dict_get data "recommended_authority_details" (VStr "") in
  let next_steps := dict_get data "next_steps" (VList []) in
  let details_to_prepare := dict_get data "details_to_prepare" (VList []) in
  let questions := dict_get data "questions_if_missing" (VList []) in
  [dict_get data "urgency_level" (VStr "Normal");
   dict_get data "recommended_authority" (VStr "Other");
   if truthy assessment then assessment else VStr no_assessment;
   if truthy authority_details then authority_details else VStr not_enough_info]
  ++ (if is_list next_steps && truthy next_steps then list_items next_steps else [])
  ++ (if is_list details_to_prepare && truthy details_to_prepare
      then list_items details_to_prepare else [])
  ++ (if is_list questions && truthy questions then list_items questions else []).


(** A response whose text holds an object in prose. *)
Definition prose_response : dict := [("text", VStr prose_text)].

Definition is_dict (v : value) : bool :=
  match v with VDict _ => true | _ => false end.

(** The outermost container that is open is an object. *)
Definition outermost_is_object (st : list frame) : bool :=
  match last st (FArr []) with
  | FObj _ _ => true
  | FArr _ => false
  end.

(** The states from which only a mapping can come out. *)
Definition dict_bound (s : parse_state) : bool :=
  match s with
  | ExpValue [] | ExpValueOrClose [] => false
  | ExpKeyOrClose [] | ExpKey _ [] | ExpColon _ _ [] => true
  | Got v [] => is_dict v
  | ExpValue st | ExpValueOrClose st | ExpKeyOrClose st
  | ExpKey _ st | ExpColon _ _ st | Got _ st => outermost_is_object st
  end.

(** The top-level text gives nothing: it is absent, falsy, or a string that
    is blank once trimmed. *)
Definition text_blank (resp : dict) : Prop :=
  forall t, dict_lookup resp "text" = Some t ->
            truthy t = false \/ exists s, t = VStr s /\ strip s = "".

(** Every byte of [w] is ASCII white space (a blank, a tab, a line break
    and the like). *)
Definition all_space1 (w : string) : bool :=
  forallb is_space1 (list_ascii_of_string w).

Ltac bools :=
  repeat match goal with
         | H : (_ && _)%bool = true |- _ => apply andb_prop in H; destruct H
         | H : (_ || _)%bool = true |- _ => apply orb_prop in H; destruct H
         | H : (_ =? _)%N = true |- _ => apply N.eqb_eq in H
         | H : (_ <=? _)%N = true |- _ => apply N.leb_le in H
         end.

(** What the three calls on the network give for a request: the decoded
    body, or the exception of the first call that raises (lines 202-204). *)
Definition fetch (E : runtime) (req : request) : result value :=
  r <- requests_post E req ;;
  _ <- raise_for_status r ;;
  json r.

Definition spinner : element := StSpinner "Sending to Flowise for analysis…".
Definition heading : element := StMarkdown "### ✅ Recommendation" false.
Definition debug_view (E : runtime) (raw : value) : list element :=
  if show_debug E
  then [StExpander "🧪 Raw Flowise response (debug)" [StCode (json_dumps E raw)]]
  else [].
Definition missing_flow_id : string := "FLOWISE_CHATFLOW_ID is missing. Add it to .env".

(** A runtime whose network answers with an error status, over a body that
    would have parsed. *)
Definition http_error : exn :=
  mk_exn "HTTPError" "500 Server Error: Internal Server Error for url: https://cloud.flowiseai.com/api/v1/prediction/x".

Definition http_error_runtime : runtime :=
  mk_runtime "https://cloud.flowiseai.com" demo_flow_id "" "session-1" false
    (fun _ => Ok (mk_response (Raise http_error) (Ok (VDict [("text", VStr object_a_text)]))))
    (fun s => ("'" ++ s ++ "'")%string) (fun _ => "nan") (fun _ => "null").




Definition user_bubble (msg : string) : chat_block :=
  ChatMessage "user" (StMarkdown msg false).

(** The text of a bubble. *)
Definition bubble_text (b : chat_block) : option (string * string) :=
  match b with
  | ChatMessage r (StMarkdown t _) => Some (r, t)
  | ChatMessage r (StError t) => Some (r, t)
  | _ => None
  end.

(** The conversation a session holds (none yet is an empty one). *)
Definition history_of (ss : session_state) : list message :=
  match ss_chat_messages ss with Some h => h | None => [] end.

(** The identifier the session has, or will get from the first run. *)
Definition session_id_of (ss : session_state)
  (steps : list (runtime * string * inputs)) : string :=
  match ss_sid ss, steps with
  | Some s, _ => s
  | None, (_, uuid, _) :: _ => uuid
  | None, [] => ""
  end.

Definition all_slashes (s : string) : bool :=
  forallb (fun c => (c =? "/")%char) (list_ascii_of_string s).

Definition keyed_runtime (key : string) : runtime :=
  mk_runtime default_base_url default_chatflow_id key "session-1" false
    (fun _ => Ok (mk_response (Ok tt) (Ok VNone)))
    (fun s => ("'" ++ s ++ "'")%string) (fun _ => "nan") (fun _ => "null").

Definition env_with_empty_id (name : string) : option string :=
  if (name =? "FLOWISE_CHATFLOW_ID")%string then Some "" else None.

(** The examples of the chat tab and of the session. *)

Definition earlier_turns : list message :=
  [mk_message "user" "Who fixes the lift?";
   mk_message "assistant" "**Urgency:** High"].

Definition list_answer_runtime : runtime :=
  demo_runtime demo_flow_id (Ok (VDict [("text", VStr "[1, 2]")])).

(** Three runs of a session: a message in the chat box, a report
    submitted, an evaluation run. *)
Definition three_runs : list (runtime * string * inputs) :=
  [(list_answer_runtime, "u1",
    mk_inputs None (Some "hello") "Lift breakdown (Town Council)" false);
   (http_error_runtime, "u2",
    mk_inputs (Some (lift_text, lift_location, AutoDetect)) None
              "Lift breakdown (Town Council)" false);
   (keyed_runtime "sk-first", "u3",
    mk_inputs None None "Suspected theft (Police)" true)].

(** * Properties *)

(** ** The library functions on examples *)

Example loads_object : Json.loads object_a_text = Some object_a.
Proof. computed. Qed.

Example loads_last_duplicate_wins :
  Json.loads ("{" ++ quoted "a" ++ ": 1, " ++ quoted "b" ++ ": 2, " ++ quoted "a" ++ ": 3}")
  = Some (VDict [("a", VInt 3); ("b", VInt 2)]).
Proof. computed. Qed.

Example loads_trailing_comma : Json.loads "[1,]" = None.
Proof. computed. Qed.

Example loads_two_values : Json.loads (object_a_text ++ " " ++ object_b_text) = None.
Proof. computed. Qed.

Example loads_surrogate_pair :
  Json.loads (quoted "\ud83d\ude00 \u00e9") = Some (VStr "😀 é").
Proof. computed. Qed.

Example loads_control_character : Json.loads (quoted ("a" ++ nl ++ "b")) = None.
Proof. computed. Qed.

Example loads_constants :
  map Json.loads ["NaN"; "-Infinity"; "null"; "-0"; "01"]
  = [Some (VFloat FNan); Some (VFloat (FInf true)); Some VNone; Some (VInt 0); None].
Proof. computed. Qed.

Example falsy_parses :
  map (fun t => option_map truthy (Json.loads t))
      ["{}"; "[]"; quoted ""; "0"; "0.0"; "-0.0"; "1e-400"; "false"; "null"]
  = repeat (Some false) 9.
Proof. computed. Qed.

Example truthy_parses :
  map (fun t => option_map truthy (Json.loads t))
      ["[0]"; quoted " "; "5e-324"; "1e999"; "NaN"; "true"]
  = repeat (Some true) 6.
Proof. computed. Qed.

Example strip_unicode_space :
  strip (String (ascii_of_nat 194) (String (ascii_of_nat 160) " a b") ++ nl) = "a b".
Proof. computed. Qed.

Example search_is_greedy :
  re_search_braces "a {x} b {y} c" = Some "{x} b {y}"
  /\ re_search_braces "} {" = None.
Proof. split; computed. Qed.

(** The two responses of the end-to-end scenarios. *)
Example scenario_embedded_object :
  extract_json_from_flowise_response
    (VDict [("text",
             VStr ("Sure! Here is the answer: {" ++ quoted "urgency_level" ++ ":"
                   ++ quoted "Emergency" ++ "," ++ quoted "recommended_authority" ++ ":"
                   ++ quoted "SCDF" ++ "}"))])
  = Ok (VDict [("urgency_level", VStr "Emergency"); ("recommended_authority", VStr "SCDF")]).
Proof. computed. Qed.

Example scenario_two_steps :
  option_map (fun d => bullets (demo_runtime demo_flow_id (Ok VNone))
                         (list_items (dict_get d "next_steps" (VList []))))
    (match Json.loads ("{" ++ quoted "urgency_level" ++ ":" ++ quoted "High" ++ ","
                       ++ quoted "next_steps" ++ ":[" ++ quoted "Call Town Council hotline"
                       ++ "," ++ quoted "Take photos" ++ "]}") with
     | Some (VDict d) => Some d
     | _ => None
     end)
  = Some ("- Call Town Council hotline" ++ nl ++ "- Take photos")%string.
Proof. computed. Qed.

(** ** Results and truthiness *)

Lemma py_or_str_empty (s : string) : py_or (VStr s) (VStr "") = VStr s.
Proof.
  unfold py_or. simpl.
  destruct (String.eqb_spec s ""); simpl; [subst; reflexivity | reflexivity].
Qed.

Lemma truthy_not_empty_dict (v : value) : truthy v = true -> v <> VDict [].
Proof. intros H Hv. subst v. discriminate H. Qed.

Lemma json_loads_empty : Json.loads "" = None.
Proof. reflexivity. Qed.

(** ** The loops follow the probing order *)

Lemma first_hit_app (ps qs : list probe) :
  first_hit (ps ++ qs) =
  r <- first_hit ps ;;
  match r with
  | Some v => Ok (Some v)
  | None => first_hit qs
  end.
Proof.
  induction ps as [| p ps IH]; simpl.
  - reflexivity.
  - destruct p as [c | e]; simpl; [| reflexivity].
    destruct (_extract_json_anywhere c) as [parsed | e]; simpl; [| reflexivity].
    destruct (truthy parsed); [reflexivity | exact IH].
Qed.

Lemma loop_values_first_hit (vs : list value) :
  loop_values vs = first_hit (map Try (filter is_str vs)).
Proof.
  induction vs as [| v vs IH]; simpl.
  - reflexivity.
  - destruct (is_str v); simpl; [| exact IH].
    destruct (_extract_json_anywhere v) as [parsed | e]; simpl; [| reflexivity].
    destruct (truthy parsed); [reflexivity | exact IH].
Qed.

Lemma loop_body_first_hit (node : value) :
  loop_body node = first_hit (entry_probes node).
Proof.
  unfold loop_body, entry_probes.
  destruct node as [| b | z | f | s | l | nd]; try reflexivity.
  simpl.
  destruct (py_or (dict_get nd "data" VNone) (VDict [])) as [| b | z | f | s | l | dd];
    try reflexivity.
  simpl.
  destruct (py_or (dict_get dd "output" VNone) (VDict [])) as [| b | z | f | s | l | od];
    try reflexivity.
  simpl.
  destruct (_extract_json_anywhere (dict_get od "content" (VStr ""))) as [parsed | e];
    simpl; [| reflexivity].
  destruct (truthy parsed); [reflexivity | apply loop_values_first_hit].
Qed.

Lemma loop_nodes_first_hit (nodes : list value) :
  loop_nodes nodes = first_hit (flat_map entry_probes nodes).
Proof.
  induction nodes as [| node rest IH]; simpl.
  - reflexivity.
  - rewrite first_hit_app, loop_body_first_hit.
    destruct (first_hit (entry_probes node)) as [[v |] | e]; simpl;
      [reflexivity | exact IH | reflexivity].
Qed.

(** The extractor is the first hit over the probes of the response. *)
Lemma extract_first_hit (resp : dict) :
  extract_json_from_flowise_response (VDict resp) =
  first_hit_or_raise (response_probes resp).
Proof.
  unfold extract_json_from_flowise_response, first_hit_or_raise, response_probes.
  simpl.
  destruct (_extract_json_anywhere (dict_get resp "text" (VStr ""))) as [parsed | e];
    simpl; [| reflexivity].
  destruct (truthy parsed); simpl; [reflexivity |].
  unfold trace_probes.
  destruct (py_reversed (py_or (dict_get resp "agentFlowExecutedData" VNone) (VList [])))
    as [nodes | e]; simpl; [| reflexivity].
  rewrite loop_nodes_first_hit. reflexivity.
Qed.

Lemma first_hit_truthy (ps : list probe) (v : value) :
  first_hit ps = Ok (Some v) -> truthy v = true.
Proof.
  induction ps as [| p ps IH]; simpl; intros H.
  - discriminate H.
  - destruct p as [c | e]; [| discriminate H].
    destruct (_extract_json_anywhere c) as [parsed | e]; simpl in H; [| discriminate H].
    destruct (truthy parsed) eqn:T.
    + injection H as <-. exact T.
    + apply IH, H.
Qed.

Lemma first_hit_skip (pre rest : list probe) :
  Forall misses pre -> first_hit (pre ++ rest) = first_hit rest.
Proof.
  induction 1 as [| p pre (c & v & -> & Hc & Hv) _ IH]; simpl.
  - reflexivity.
  - rewrite Hc. simpl. rewrite Hv. exact IH.
Qed.

(** The hit is the first probe that does not miss. *)
Lemma first_hit_some_iff (ps : list probe) (v : value) :
  first_hit ps = Ok (Some v) <->
  exists pre c post,
    ps = pre ++ Try c :: post /\ Forall misses pre
    /\ _extract_json_anywhere c = Ok v /\ truthy v = true.
Proof.
  split.
  - induction ps as [| p ps IH]; simpl; intros H.
    + discriminate H.
    + destruct p as [c | e]; [| discriminate H].
      destruct (_extract_json_anywhere c) as [parsed | e] eqn:Hc; simpl in H;
        [| discriminate H].
      destruct (truthy parsed) eqn:T.
      * injection H as <-. exists [], c, ps. repeat split; auto.
      * destruct (IH H) as (pre & c' & post & -> & Hpre & Hc' & Hv).
        exists (Try c :: pre), c', post. repeat split; auto.
        constructor; [| exact Hpre]. exists c, parsed. auto.
  - intros (pre & c & post & -> & Hpre & Hc & Hv).
    rewrite (first_hit_skip pre (Try c :: post) Hpre). simpl.
    rewrite Hc. simpl. rewrite Hv. reflexivity.
Qed.

Lemma first_hit_none_raises (ps : list probe) :
  (forall c, In (Try c) ps ->
             forall v, _extract_json_anywhere c = Ok v -> truthy v = false) ->
  first_hit ps = Ok None \/ exists e, first_hit ps = Raise e.
Proof.
  induction ps as [| p ps IH]; simpl; intros H.
  - left. reflexivity.
  - destruct p as [c | e]; [| right; exists e; reflexivity].
    destruct (_extract_json_anywhere c) as [parsed | e] eqn:Hc; simpl;
      [| right; exists e; reflexivity].
    rewrite (H c (or_introl eq_refl) parsed Hc).
    apply IH. intros c' Hin. apply H. right. exact Hin.
Qed.

Lemma first_hit_or_raise_none (ps : list probe) :
  (forall c, In (Try c) ps ->
             forall v, _extract_json_anywhere c = Ok v -> truthy v = false) ->
  exists e, first_hit_or_raise ps = Raise e.
Proof.
  intros H. unfold first_hit_or_raise.
  destruct (first_hit_none_raises ps H) as [-> | [e ->]]; simpl; eexists; reflexivity.
Qed.

(** ** The brace span *)

Lemma upto_last_rbrace_none (post : string) :
  has_char "}" post = false -> upto_last_rbrace post = None.
Proof.
  induction post as [| c post IH]; simpl; [reflexivity |].
  destruct (c =? "}")%char; simpl; intros H; [discriminate H |].
  rewrite (IH H). reflexivity.
Qed.

Lemma upto_last_rbrace_app (mid post : string) :
  has_char "}" post = false ->
  upto_last_rbrace (mid ++ "}" ++ post) = Some (mid ++ "}")%string.
Proof.
  intros H. induction mid as [| c mid IH]; simpl.
  - rewrite (upto_last_rbrace_none post H). reflexivity.
  - simpl in IH. rewrite IH. reflexivity.
Qed.

Lemma re_search_braces_span (pre mid post : string) :
  has_char "{" pre = false -> has_char "}" post = false ->
  re_search_braces (pre ++ "{" ++ mid ++ "}" ++ post) = Some ("{" ++ mid ++ "}")%string.
Proof.
  intros Hpre Hpost. induction pre as [| c pre IH]; simpl.
  - pose proof (upto_last_rbrace_app mid post Hpost) as H. simpl in H.
    rewrite H. reflexivity.
  - simpl in Hpre.
    destruct (c =? "{")%char; simpl in Hpre; [discriminate Hpre |].
    apply IH, Hpre.
Qed.

Lemma append_brace_not_empty (pre rest : string) :
  ((pre ++ "{" ++ rest) =? "")%string = false.
Proof. destruct pre; reflexivity. Qed.

(** ** The decoder: what a falsy parse looks like *)

Lemma dict_set_not_empty (d : dict) (k : string) (v : value) : dict_set d k v <> [].
Proof. destruct d as [| [k0 v0] d]; simpl; [| destruct (k0 =? k)%string]; discriminate. Qed.

Lemma parse_step_truthy_bound (s s' : parse_state) (t : token) :
  truthy_bound s = true -> parse_step s t = Some s' -> truthy_bound s' = true.
Proof.
  intros Hs Hstep.
  destruct s as [st | st | st | d st | d k st | v [| [acc | d' k'] st]].
  - destruct st; [discriminate Hs |].
    destruct t; try discriminate Hstep; injection Hstep as <-; reflexivity.
  - destruct st; [discriminate Hs |].
    destruct t; try discriminate Hstep; injection Hstep as <-; reflexivity.
  - destruct st; [discriminate Hs |].
    destruct t as [| | | | | | a]; try discriminate Hstep.
    + injection Hstep as <-. reflexivity.
    + destruct a; try discriminate Hstep. injection Hstep as <-. reflexivity.
  - destruct t as [| | | | | | a]; try discriminate Hstep.
    destruct a; try discriminate Hstep. injection Hstep as <-. reflexivity.
  - destruct t; try discriminate Hstep. injection Hstep as <-. reflexivity.
  - destruct t; discriminate Hstep.
  - destruct t; try discriminate Hstep; injection Hstep as <-; [| reflexivity].
    destruct st; [| reflexivity]. simpl. destruct (rev acc); reflexivity.
  - destruct t; try discriminate Hstep; injection Hstep as <-; [| reflexivity].
    destruct st; [| reflexivity]. simpl.
    pose proof (dict_set_not_empty d' k' v) as Hne.
    destruct (dict_set d' k' v); [contradiction | reflexivity].
Qed.

Lemma parse_run_truthy_bound (ts : list token) :
  forall (s : parse_state) (v : value),
    truthy_bound s = true -> parse_run s ts = Some v -> truthy v = true.
Proof.
  induction ts as [| t ts IH]; simpl; intros s v Hs Hrun.
  - destruct s as [st | st | st | d st | d k st | x [| f st]]; try discriminate Hrun.
    injection Hrun as <-. exact Hs.
  - destruct (parse_step s t) as [s' |] eqn:Hstep; [| discriminate Hrun].
    exact (IH s' v (parse_step_truthy_bound s s' t Hs Hstep) Hrun).
Qed.

Lemma parse_falsy_shape (ts : list token) (v : value) :
  parse_run (ExpValue []) ts = Some v -> truthy v = false ->
  ts = [TAtom v] \/ ts = [TLBracket; TRBracket] \/ ts = [TLBrace; TRBrace].
Proof.
  intros Hrun Hv.
  assert (Hno : forall s ts', truthy_bound s = true -> parse_run s ts' = Some v -> False).
  { intros s ts' Hs Hr. rewrite (parse_run_truthy_bound ts' s v Hs Hr) in Hv. discriminate Hv. }
  destruct ts as [| t1 ts]; [discriminate Hrun |].
  destruct t1; simpl in Hrun; try discriminate Hrun.
  - destruct ts as [| t2 ts]; [discriminate Hrun |].
    destruct t2; simpl in Hrun; try discriminate Hrun.
    + destruct ts as [| t3 ts]; [| destruct t3; discriminate Hrun].
      right. right. reflexivity.
    + destruct v0; try discriminate Hrun.
      exfalso. exact (Hno (ExpColon [] s []) ts eq_refl Hrun).
  - destruct ts as [| t2 ts]; [discriminate Hrun |].
    destruct t2; simpl in Hrun; try discriminate Hrun.
    + exfalso. exact (Hno (ExpKeyOrClose [FArr []]) ts eq_refl Hrun).
    + exfalso. exact (Hno (ExpValueOrClose [FArr []]) ts eq_refl Hrun).
    + destruct ts as [| t3 ts]; [| destruct t3; discriminate Hrun].
      right. left. reflexivity.
    + exfalso. exact (Hno (Got v0 [FArr []]) ts eq_refl Hrun).
  - destruct ts as [| t2 ts]; [| destruct t2; discriminate Hrun].
    injection Hrun as ->. left. reflexivity.
Qed.

(** *** The scanner *)

Lemma string_of_rev_not_empty (l : list ascii) :
  l <> [] -> string_of_list_ascii (rev l) <> "".
Proof.
  destruct l as [| a l]; [contradiction |]. intros _ H.
  apply (f_equal list_ascii_of_string) in H.
  rewrite list_ascii_of_string_of_list_ascii in H. simpl in H.
  destruct (rev l); discriminate H.
Qed.

Lemma flush_cons (a : ascii) (acc : list ascii) (pend : option N) :
  exists b l, flush (a :: acc) pend = b :: l.
Proof.
  destruct pend as [h |]; simpl; [| eauto].
  destruct (utf8_rev h); simpl; eauto.
Qed.

Lemma end_escape_in_text (c : N) (a : ascii) (acc : list ascii) (pend : option N) :
  in_text (end_escape c (a :: acc) pend) = true.
Proof.
  unfold end_escape.
  destruct pend as [h |].
  - destruct (is_low_surrogate c); [| destruct (is_high_surrogate c)]; simpl.
    + destruct (utf8_rev _); reflexivity.
    + destruct (utf8_rev h); reflexivity.
    + destruct (utf8_rev c); [destruct (utf8_rev h) |]; reflexivity.
  - destruct (is_high_surrogate c); simpl; [reflexivity |].
    destruct (utf8_rev c); reflexivity.
Qed.

Lemma brace_or_text_app_r (ts1 ts2 : list token) :
  brace_or_text ts2 -> brace_or_text (ts1 ++ ts2).
Proof.
  intros [H | (x & H & Hx)]; [left | right; exists x; split; [| exact Hx]];
    apply in_or_app; right; exact H.
Qed.

Lemma brace_or_text_app_l (ts1 ts2 : list token) :
  brace_or_text ts1 -> brace_or_text (ts1 ++ ts2).
Proof.
  intros [H | (x & H & Hx)]; [left | right; exists x; split; [| exact Hx]];
    apply in_or_app; left; exact H.
Qed.

(** A step from inside a text stays inside it, or closes a string that is
    not empty. *)
Lemma lex_step_in_text (m m' : lex_mode) (c : ascii) (ts : list token) :
  in_text m = true -> lex_step m c = Some (ts, m') ->
  in_text m' = true \/ brace_or_text ts.
Proof.
  intros Hm Hstep.
  destruct m as [| [| a acc] pend | [| a acc] pend | k code [| a acc] pend | acc | acc];
    try discriminate Hm; simpl in Hstep.
  - destruct (c =? "034")%char.
    + injection Hstep as <- <-. right. right.
      eexists. split; [left; reflexivity |].
      apply string_of_rev_not_empty.
      destruct (flush_cons a acc pend) as (b & l & ->). discriminate.
    + destruct (c =? "\")%char; [injection Hstep as <- <-; left; reflexivity |].
      destruct (byte c <? 32)%N; [discriminate Hstep |].
      injection Hstep as <- <-. left. reflexivity.
  - destruct (c =? "u")%char; [injection Hstep as <- <-; left; reflexivity |].
    destruct (simple_escape c); [| discriminate Hstep].
    injection Hstep as <- <-. left. reflexivity.
  - destruct (hex_digit c) as [d |]; [| discriminate Hstep].
    destruct k as [| [| k]]; injection Hstep as <- <-; left;
      try apply end_escape_in_text; reflexivity.
Qed.

(** An opening brace in the text is a token, or part of a string. *)
Lemma lex_step_lbrace (m m' : lex_mode) (ts : list token) :
  lex_step m "{" = Some (ts, m') -> in_text m' = true \/ In TLBrace ts.
Proof.
  intros Hstep.
  destruct m as [| acc pend | acc pend | k code acc pend | acc | acc];
    simpl in Hstep; try discriminate Hstep.
  - injection Hstep as <- <-. right. left. reflexivity.
  - injection Hstep as <- <-. left. reflexivity.
  - unfold then_top in Hstep. destruct (end_number acc); [| discriminate Hstep].
    injection Hstep as <- <-. right. right. left. reflexivity.
  - unfold then_top in Hstep. destruct (end_word acc); [| discriminate Hstep].
    injection Hstep as <- <-. right. right. left. reflexivity.
Qed.

Lemma lex_run_brace_or_text (s : string) :
  forall (m : lex_mode) (ts : list token),
    lex_run m s = Some ts ->
    has_char "{" s = true \/ in_text m = true ->
    brace_or_text ts.
Proof.
  induction s as [| c s IH]; simpl; intros m ts Hrun Hor.
  - destruct Hor as [H | H]; [discriminate H |].
    destruct m as [| [| a acc] pend | [| a acc] pend | k code [| a acc] pend | acc | acc];
      discriminate.
  - destruct (lex_step m c) as [[ts1 m'] |] eqn:Hstep; [| discriminate Hrun].
    destruct (lex_run m' s) as [ts2 |] eqn:Hrest; [| discriminate Hrun].
    injection Hrun as <-.
    assert (Hnext : in_text m' = true \/ brace_or_text ts1 -> brace_or_text (ts1 ++ ts2)).
    { intros [H | H].
      - apply brace_or_text_app_r, (IH m' ts2 Hrest). right. exact H.
      - apply brace_or_text_app_l, H. }
    destruct Hor as [Hc | Hm].
    + destruct (Ascii.eqb_spec c "{") as [-> | Hne]; simpl in Hc.
      * apply Hnext. destruct (lex_step_lbrace m m' ts1 Hstep) as [H | H];
          [left; exact H | right; left; exact H].
      * apply brace_or_text_app_r, (IH m' ts2 Hrest). left. exact Hc.
    + apply Hnext, (lex_step_in_text m m' c ts1 Hm Hstep).
Qed.

(** Outside the top level the scanner is in the middle of an atom, which
    is the next token it gives. *)
Lemma then_top_atom (v : option value) (c : ascii) (ts : list token) (m : lex_mode) :
  then_top (option_map TAtom v) c = Some (ts, m) -> exists a rest, ts = TAtom a :: rest.
Proof.
  unfold then_top. destruct v as [a |]; simpl; [| discriminate].
  destruct (lex_top c) as [[ts' m'] |]; [| discriminate].
  intros H. injection H as <- <-. eauto.
Qed.

Lemma end_escape_not_top (c : N) (acc : list ascii) (pend : option N) :
  end_escape c acc pend <> LTop.
Proof.
  unfold end_escape.
  destruct pend; [destruct (is_low_surrogate c) |];
    destruct (is_high_surrogate c); discriminate.
Qed.

Lemma lex_run_atom_first (s : string) :
  forall (m : lex_mode) (ts : list token),
    m <> LTop -> lex_run m s = Some ts -> exists a rest, ts = TAtom a :: rest.
Proof.
  induction s as [| c s IH]; simpl; intros m ts Hm Hrun.
  - destruct m as [| acc pend | acc pend | k code acc pend | acc | acc];
      try contradiction; try discriminate Hrun; simpl in Hrun.
    + unfold end_number in Hrun.
      destruct (number_of_literal (rev acc)); [| discriminate Hrun].
      injection Hrun as <-. eauto.
    + unfold end_word in Hrun.
      destruct (word_of_literal _); [| discriminate Hrun].
      injection Hrun as <-. eauto.
  - destruct (lex_step m c) as [[ts1 m'] |] eqn:Hstep; [| discriminate Hrun].
    destruct (lex_run m' s) as [ts2 |] eqn:Hrest; [| discriminate Hrun].
    injection Hrun as <-.
    assert (Hlater : ts1 = [] -> m' <> LTop -> exists a rest, ts1 ++ ts2 = TAtom a :: rest).
    { intros -> Hm'. exact (IH m' ts2 Hm' Hrest). }
    destruct m as [| acc pend | acc pend | k code acc pend | acc | acc];
      try contradiction; simpl in Hstep.
    + destruct (c =? "034")%char; [injection Hstep as <- <-; simpl; eauto |].
      destruct (c =? "\")%char; [injection Hstep as <- <-; apply Hlater; [reflexivity | discriminate] |].
      destruct (byte c <? 32)%N; [discriminate Hstep |].
      injection Hstep as <- <-. apply Hlater; [reflexivity | discriminate].
    + destruct (c =? "u")%char; [injection Hstep as <- <-; apply Hlater; [reflexivity | discriminate] |].
      destruct (simple_escape c); [| discriminate Hstep].
      injection Hstep as <- <-. apply Hlater; [reflexivity | discriminate].
    + destruct (hex_digit c) as [d |]; [| discriminate Hstep].
      destruct k as [| [| k]]; injection Hstep as <- <-; apply Hlater;
        try reflexivity; try apply end_escape_not_top; discriminate.
    + destruct (is_number_char c);
        [injection Hstep as <- <-; apply Hlater; [reflexivity | discriminate] |].
      destruct ((c =? "I")%char && _);
        [injection Hstep as <- <-; apply Hlater; [reflexivity | discriminate] |].
      destruct (then_top_atom _ c ts1 m' Hstep) as (a & rest & ->). simpl. eauto.
    + destruct (is_letter c);
        [injection Hstep as <- <-; apply Hlater; [reflexivity | discriminate] |].
      destruct (then_top_atom _ c ts1 m' Hstep) as (a & rest & ->). simpl. eauto.
Qed.

(** What one character gives at the top level. *)
Lemma lex_top_cases (c : ascii) (ts : list token) (m : lex_mode) :
  lex_top c = Some (ts, m) ->
  (is_json_space c = true /\ ts = [] /\ m = LTop)
  \/ (is_json_space c = false /\ m = LTop /\ exists t, ts = [t] /\
      ((t = TLBrace /\ c = "{"%char) \/ (t = TRBrace /\ c = "}"%char)
       \/ (t <> TLBrace /\ t <> TRBrace)))
  \/ (ts = [] /\ m <> LTop).
Proof.
  unfold lex_top.
  destruct (is_json_space c); [intros H; injection H as <- <-; left; auto |].
  destruct (Ascii.eqb_spec c "{") as [-> | _];
    [intros H; injection H as <- <-; right; left; repeat split; eauto 6 |].
  destruct (Ascii.eqb_spec c "}") as [-> | _];
    [intros H; injection H as <- <-; right; left; repeat split; eauto 7 |].
  destruct (c =? "[")%char;
    [intros H; injection H as <- <-; right; left; repeat split;
     eexists; split; [reflexivity | right; right; split; discriminate] |].
  destruct (c =? "]")%char;
    [intros H; injection H as <- <-; right; left; repeat split;
     eexists; split; [reflexivity | right; right; split; discriminate] |].
  destruct (c =? ":")%char;
    [intros H; injection H as <- <-; right; left; repeat split;
     eexists; split; [reflexivity | right; right; split; discriminate] |].
  destruct (c =? ",")%char;
    [intros H; injection H as <- <-; right; left; repeat split;
     eexists; split; [reflexivity | right; right; split; discriminate] |].
  destruct (c =? "034")%char;
    [intros H; injection H as <- <-; right; right; split; [reflexivity | discriminate] |].
  destruct (is_digit c || (c =? "-")%char);
    [intros H; injection H as <- <-; right; right; split; [reflexivity | discriminate] |].
  destruct (is_letter c); [| discriminate].
  intros H; injection H as <- <-; right; right; split; [reflexivity | discriminate].
Qed.

Lemma lex_run_cons (m : lex_mode) (c : ascii) (s : string) (ts : list token) :
  lex_run m (String c s) = Some ts ->
  exists ts1 m' ts2,
    lex_step m c = Some (ts1, m') /\ lex_run m' s = Some ts2 /\ ts = ts1 ++ ts2.
Proof.
  simpl. destruct (lex_step m c) as [[ts1 m'] |] eqn:Hstep; [| discriminate].
  destruct (lex_run m' s) as [ts2 |] eqn:Hrest; [| discriminate].
  intros H. injection H as <-. exists ts1, m', ts2. auto.
Qed.

Lemma lex_top_empty (s : string) :
  lex_run LTop s = Some [] -> all_space s = true.
Proof.
  induction s as [| c s IH]; [reflexivity |]. intros Hrun.
  destruct (lex_run_cons LTop c s [] Hrun) as (ts1 & m' & ts2 & Hstep & Hrest & Heq).
  destruct (lex_top_cases c ts1 m' Hstep)
    as [(Hc & -> & ->) | [(_ & _ & t & -> & _) | (-> & Hm)]].
  - simpl in Heq. subst ts2. unfold all_space. simpl. fold (all_space s).
    rewrite Hc, (IH Hrest). reflexivity.
  - discriminate Heq.
  - destruct (lex_run_atom_first s m' ts2 Hm Hrest) as (a & rest & ->). discriminate Heq.
Qed.

Lemma lex_top_rbrace (s : string) :
  lex_run LTop s = Some [TRBrace] ->
  exists w2 w3, s = (w2 ++ "}" ++ w3)%string /\ all_space w2 = true /\ all_space w3 = true.
Proof.
  induction s as [| c s IH]; [discriminate |]. intros Hrun.
  destruct (lex_run_cons LTop c s _ Hrun) as (ts1 & m' & ts2 & Hstep & Hrest & Heq).
  destruct (lex_top_cases c ts1 m' Hstep)
    as [(Hc & -> & ->) | [(_ & -> & t & -> & Ht) | (-> & Hm)]].
  - simpl in Heq. subst ts2. destruct (IH Hrest) as (w2 & w3 & -> & H2 & H3).
    exists (String c w2), w3. repeat split; [| exact H3].
    unfold all_space. simpl. fold (all_space w2). rewrite Hc, H2. reflexivity.
  - injection Heq as <- <-.
    destruct Ht as [[Ht _] | [[_ ->] | [_ Ht]]]; [discriminate Ht | | contradiction].
    exists "", s. repeat split. exact (lex_top_empty s Hrest).
  - destruct (lex_run_atom_first s m' ts2 Hm Hrest) as (a & rest & ->). discriminate Heq.
Qed.

Lemma lex_top_braces (s : string) :
  lex_run LTop s = Some [TLBrace; TRBrace] ->
  exists w1 w2 w3,
    s = (w1 ++ "{" ++ w2 ++ "}" ++ w3)%string
    /\ all_space w1 = true /\ all_space w2 = true /\ all_space w3 = true.
Proof.
  induction s as [| c s IH]; [discriminate |]. intros Hrun.
  destruct (lex_run_cons LTop c s _ Hrun) as (ts1 & m' & ts2 & Hstep & Hrest & Heq).
  destruct (lex_top_cases c ts1 m' Hstep)
    as [(Hc & -> & ->) | [(_ & -> & t & -> & Ht) | (-> & Hm)]].
  - simpl in Heq. subst ts2. destruct (IH Hrest) as (w1 & w2 & w3 & -> & H1 & H2 & H3).
    exists (String c w1), w2, w3. repeat split; [| exact H2 | exact H3].
    unfold all_space. simpl. fold (all_space w1). rewrite Hc, H1. reflexivity.
  - injection Heq as <- <-.
    destruct Ht as [[_ ->] | [[Ht _] | [Ht _]]]; [| discriminate Ht | contradiction].
    destruct (lex_top_rbrace s Hrest) as (w2 & w3 & -> & H2 & H3).
    exists "", w2, w3. repeat split; assumption.
  - destruct (lex_run_atom_first s m' ts2 Hm Hrest) as (a & rest & ->). discriminate Heq.
Qed.

Lemma space_not_brace (c : ascii) :
  is_json_space c = true -> (c =? "{")%char = false /\ (c =? "}")%char = false.
Proof.
  destruct c as [[] [] [] [] [] [] [] []]; intros H; try discriminate H; split; reflexivity.
Qed.

Lemma all_space_no_brace (w : string) :
  all_space w = true -> has_char "{" w = false /\ has_char "}" w = false.
Proof.
  induction w as [| c w IH]; [split; reflexivity |].
  unfold all_space. simpl. fold (all_space w).
  intros H. apply andb_prop in H. destruct H as [Hc Hw].
  destruct (space_not_brace c Hc) as [-> ->]. exact (IH Hw).
Qed.

Lemma lex_run_skip_spaces (w s : string) :
  all_space w = true -> lex_run LTop (w ++ s) = lex_run LTop s.
Proof.
  induction w as [| c w IH]; [reflexivity |].
  unfold all_space. simpl. fold (all_space w).
  intros H. apply andb_prop in H. destruct H as [Hc Hw].
  unfold lex_top. rewrite Hc, (IH Hw).
  destruct (lex_run LTop s); reflexivity.
Qed.

Lemma re_search_braces_no_lbrace (t : string) :
  has_char "{" t = false -> re_search_braces t = None.
Proof.
  induction t as [| c t IH]; simpl; [reflexivity |].
  destruct (c =? "{")%char; simpl; [discriminate | exact IH].
Qed.

(** A text that parses to a falsy value holds nothing truthy in its brace
    span either. *)
Lemma falsy_parse_no_salvage (t : string) (v : value) :
  Json.loads t = Some v -> truthy v = false ->
  forall span w, re_search_braces t = Some span -> Json.loads span = Some w ->
                 truthy w = false.
Proof.
  unfold Json.loads at 1. intros Hv Tv span w Hspan Hw.
  destruct (lex_run LTop t) as [ts |] eqn:Hlex; [| discriminate Hv].
  assert (Hnone : ~ brace_or_text ts -> False).
  { intros Hts. destruct (has_char "{" t) eqn:Hb.
    - apply Hts, (lex_run_brace_or_text t LTop ts Hlex). left. exact Hb.
    - rewrite (re_search_braces_no_lbrace t Hb) in Hspan. discriminate Hspan. }
  destruct (parse_falsy_shape ts v Hv Tv) as [-> | [-> | ->]].
  - exfalso. apply Hnone. intros [[H | []] | (x & [H | []] & Hx)]; [discriminate H |].
    injection H as ->. simpl in Tv.
    destruct (String.eqb_spec x ""); [contradiction | discriminate Tv].
  - exfalso. apply Hnone.
    intros [[H | [H | []]] | (x & [H | [H | []]] & _)]; discriminate H.
  - destruct (lex_top_braces t Hlex) as (w1 & w2 & w3 & -> & H1 & H2 & H3).
    destruct (all_space_no_brace w1 H1) as [Hl _].
    destruct (all_space_no_brace w3 H3) as [_ Hr].
    rewrite (re_search_braces_span w1 w2 w3 Hl Hr) in Hspan. injection Hspan as <-.
    unfold Json.loads in Hw. simpl in Hw.
    replace (w2 ++ "}")%string with (w2 ++ "}" ++ "")%string in Hw by reflexivity.
    rewrite (lex_run_skip_spaces w2 _ H2) in Hw. simpl in Hw.
    injection Hw as <-. reflexivity.
Qed.

(** ** The extractor *)

Lemma dict_lookup_set_other (d : dict) (k k' : string) (x : value) :
  (k =? k')%string = false ->
  dict_lookup (dict_set d k x) k' = dict_lookup d k'.
Proof.
  intros Hk. induction d as [| [k0 v0] d IH]; simpl.
  - rewrite Hk. reflexivity.
  - destruct (String.eqb_spec k0 k) as [-> | Hne]; simpl.
    + rewrite Hk. reflexivity.
    + destruct (k0 =? k')%string; [reflexivity | exact IH].
Qed.

Lemma extract_text_hit (resp : dict) (t : string) (v : value) :
  dict_lookup resp "text" = Some (VStr t) ->
  Json.loads (strip t) = Some v ->
  truthy v = true ->
  extract_json_from_flowise_response (VDict resp) = Ok v.
Proof.
  intros Ht Hv Tv.
  unfold extract_json_from_flowise_response. simpl.
  unfold dict_get at 1. rewrite Ht.
  unfold _extract_json_anywhere. rewrite py_or_str_empty. simpl.
  destruct (String.eqb_spec (strip t) "") as [Hs | _].
  - rewrite Hs, json_loads_empty in Hv. discriminate Hv.
  - rewrite Hv. simpl. rewrite Tv. reflexivity.
Qed.

Lemma first_hit_or_raise_ok (ps : list probe) (v : value) :
  first_hit_or_raise ps = Ok v <-> first_hit ps = Ok (Some v).
Proof.
  unfold first_hit_or_raise.
  destruct (first_hit ps) as [[x |] | e]; simpl; split; intros H;
    try discriminate H; injection H as <-; reflexivity.
Qed.

Lemma response_probes_list (resp : dict) (nodes : list value) :
  dict_lookup resp "agentFlowExecutedData" = Some (VList nodes) ->
  response_probes resp =
  Try (dict_get resp "text" (VStr "")) :: flat_map entry_probes (rev nodes).
Proof.
  intros H. unfold response_probes. f_equal.
  unfold dict_get. rewrite H.
  destruct nodes; reflexivity.
Qed.

Lemma extract_truthy (resp v : value) :
  extract_json_from_flowise_response resp = Ok v -> truthy v = true.
Proof.
  destruct resp as [| b | z | f | s | l | d]; try discriminate.
  rewrite extract_first_hit, first_hit_or_raise_ok.
  apply first_hit_truthy.
Qed.

(** C1 (counterexample).  The text [{}] parses directly, to the empty
    object; the extractor does not return it: it goes on to the trace and
    returns what it finds there, and raises when there is no trace. *)
Lemma text_parse_falsy_not_returned :
  dict_lookup empty_object_response "text" = Some (VStr "{}")
  /\ Json.loads (strip "{}") = Some (VDict [])
  /\ extract_json_from_flowise_response (VDict empty_object_response) = Ok object_a
  /\ object_a <> VDict []
  /\ extract_json_from_flowise_response (VDict [("text", VStr "{}")])
     = Raise (RuntimeError no_json_message).
Proof.
  split; [computed |]. split; [computed |]. split; [computed |].
  split; [discriminate | computed].
Qed.

(** C1 (amended).  When the top-level [text] of a response is a string
    whose trimmed content parses directly to a truthy value, the extractor
    returns exactly that value, whatever the execution trace holds: the
    trace is not consulted. *)
Theorem text_parse_returned (resp : dict) (t : string) (v : value) :
  dict_lookup resp "text" = Some (VStr t) ->
  Json.loads (strip t) = Some v ->
  truthy v = true ->
  extract_json_from_flowise_response (VDict resp) = Ok v
  /\ forall trace : value,
       extract_json_from_flowise_response
         (VDict (dict_set resp "agentFlowExecutedData" trace)) = Ok v.
Proof.
  intros Ht Hv Tv. split.
  - exact (extract_text_hit resp t v Ht Hv Tv).
  - intros trace. apply (extract_text_hit _ t v); [| exact Hv | exact Tv].
    rewrite dict_lookup_set_other; [exact Ht | reflexivity].
Qed.

(** C1, on a response whose trace is not even a list. *)
Lemma text_parse_returned_witness :
  extract_json_from_flowise_response
    (VDict [("text", VStr object_a_text); ("agentFlowExecutedData", VInt 5)])
  = Ok object_a.
Proof.
  apply (text_parse_returned
           [("text", VStr object_a_text); ("agentFlowExecutedData", VInt 5)]
           object_a_text object_a); computed.
Defined.

(** C3 (counterexample).  The last trace entry is probed first and its
    content [{}] parses; the extractor nevertheless returns the object of
    the first entry. *)
Lemma trace_falsy_parse_not_returned :
  flat_map entry_probes (rev [trace_entry object_a_text; trace_entry "{}"])
  = [Try (VStr "{}"); Try (VStr "{}");
     Try (VStr object_a_text); Try (VStr object_a_text)]
  /\ Json.loads (strip "{}") = Some (VDict [])
  /\ _extract_json_anywhere (VStr "{}") = Ok (VDict [])
  /\ extract_json_from_flowise_response (VDict falsy_last_entry_response) = Ok object_a
  /\ object_a <> VDict [].
Proof.
  split; [computed |]. split; [computed |]. split; [computed |].
  split; [computed | discriminate].
Qed.

(** C3 (amended).  When the top-level text yields nothing truthy and the
    response carries a trace list, the extractor probes the entries from
    the last to the first, and in each entry the [content] of the output
    and then every string of the output in the mapping's order; it returns
    the first truthy result of parse-then-salvage in that order (a
    candidate that parses to a falsy value is passed over), and raises when
    there is none. *)
Theorem trace_scanned_last_to_first (resp : dict) (nodes : list value) (p : value) :
  dict_lookup resp "agentFlowExecutedData" = Some (VList nodes) ->
  _extract_json_anywhere (dict_get resp "text" (VStr "")) = Ok p ->
  truthy p = false ->
  let ps := flat_map entry_probes (rev nodes) in
  extract_json_from_flowise_response (VDict resp) = first_hit_or_raise ps
  /\ forall v : value,
       extract_json_from_flowise_response (VDict resp) = Ok v <->
       exists pre c post,
         ps = pre ++ Try c :: post /\ Forall misses pre
         /\ _extract_json_anywhere c = Ok v /\ truthy v = true.
Proof.
  intros Hn Hp Tp ps.
  assert (Heq : extract_json_from_flowise_response (VDict resp) = first_hit_or_raise ps).
  { rewrite extract_first_hit, (response_probes_list resp nodes Hn).
    unfold first_hit_or_raise. simpl. rewrite Hp. simpl. rewrite Tp. reflexivity. }
  split; [exact Heq |].
  intros v. rewrite Heq, first_hit_or_raise_ok. apply first_hit_some_iff.
Qed.

(** C3, on a trace of two entries that both hold an object: the last wins. *)
Lemma trace_scanned_last_to_first_witness :
  extract_json_from_flowise_response (VDict two_entries_response) = Ok object_b.
Proof.
  destruct (trace_scanned_last_to_first two_entries_response
              [trace_entry object_a_text; trace_entry ("Final: " ++ object_b_text)%string]
              VNone eq_refl eq_refl eq_refl) as [H _].
  rewrite H. reflexivity.
Defined.

(** C4 (counterexample).  The text embeds the object [{"a": 1}] in prose
    and does not parse directly, yet nothing is extracted from it: the one
    span that is tried runs to the last closing brace. *)
Lemma embedded_object_not_found :
  two_objects_text = ("Options: " ++ object_a_text ++ " or " ++ object_b_text ++ ".")%string
  /\ Json.loads (strip two_objects_text) = None
  /\ Json.loads object_a_text = Some object_a
  /\ re_search_braces (strip two_objects_text)
     = Some (object_a_text ++ " or " ++ object_b_text)%string
  /\ _extract_json_anywhere (VStr two_objects_text) = Ok VNone.
Proof.
  split; [computed |]. split; [computed |]. split; [computed |].
  split; computed.
Qed.

(** C4 (amended).  For a text whose trimmed content does not parse
    directly, [_extract_json_anywhere] tries one span only, the one from
    the first opening brace of the trimmed text to its last closing brace:
    it returns the parse of that span when the span parses, and [None]
    when it does not. *)
Theorem greedy_span_extracted (text pre mid post : string) :
  strip text = (pre ++ "{" ++ mid ++ "}" ++ post)%string ->
  has_char "{" pre = false ->
  has_char "}" post = false ->
  Json.loads (strip text) = None ->
  _extract_json_anywhere (VStr text) =
  Ok match Json.loads ("{" ++ mid ++ "}") with
     | Some v => v
     | None => VNone
     end.
Proof.
  intros Hs Hpre Hpost Hd.
  unfold _extract_json_anywhere. rewrite py_or_str_empty. simpl.
  rewrite Hd, Hs.
  rewrite append_brace_not_empty, (re_search_braces_span pre mid post Hpre Hpost).
  simpl. destruct (Json.loads (String "{" (mid ++ "}"))); reflexivity.
Qed.

(** C4, on an object between two pieces of prose. *)
Lemma greedy_span_extracted_witness :
  _extract_json_anywhere (VStr prose_text) = Ok object_a.
Proof.
  apply (greedy_span_extracted prose_text "Sure! Here is the answer: "
           (quoted "a" ++ ": 1") " Hope it helps."); computed.
Defined.

(** C9.  Probes that miss, whether nothing parsed there or what parsed is
    falsy, leave the outcome to the probes after them; a value the
    extractor returns is truthy, so never the empty object; and a text
    whose direct parse is falsy holds nothing truthy in its brace span, so
    that passing it over is what a failed parse would have come to. *)
Theorem extracted_value_truthy (resp : dict) (pre rest : list probe) :
  response_probes resp = pre ++ rest ->
  Forall misses pre ->
  extract_json_from_flowise_response (VDict resp) = first_hit_or_raise rest
  /\ (forall r v : value,
        extract_json_from_flowise_response r = Ok v ->
        truthy v = true /\ v <> VDict [])
  /\ (forall (t : string) (v : value),
        Json.loads t = Some v -> truthy v = false ->
        forall span w, re_search_braces t = Some span -> Json.loads span = Some w ->
                       truthy w = false).
Proof.
  intros Hps Hpre. split; [| split].
  - rewrite extract_first_hit, Hps. unfold first_hit_or_raise.
    rewrite (first_hit_skip pre rest Hpre). reflexivity.
  - intros r v H. pose proof (extract_truthy r v H) as T.
    split; [exact T | exact (truthy_not_empty_dict v T)].
  - exact falsy_parse_no_salvage.
Qed.

(** The first three probes of [falsy_last_entry_response] miss. *)
Lemma falsy_probes_miss :
  Forall misses [Try (VStr "see the trace"); Try (VStr "{}"); Try (VStr "{}")].
Proof.
  repeat constructor.
  - exists (VStr "see the trace"), VNone. split; [| split]; computed.
  - exists (VStr "{}"), (VDict []). split; [| split]; computed.
  - exists (VStr "{}"), (VDict []). split; [| split]; computed.
Defined.

(** C9, on a response whose last trace entry holds the empty object. *)
Lemma extracted_value_truthy_witness :
  extract_json_from_flowise_response (VDict falsy_last_entry_response)
  = first_hit_or_raise [Try (VStr object_a_text); Try (VStr object_a_text)].
Proof.
  exact (proj1 (extracted_value_truthy falsy_last_entry_response
                  [Try (VStr "see the trace"); Try (VStr "{}"); Try (VStr "{}")]
                  [Try (VStr object_a_text); Try (VStr object_a_text)]
                  eq_refl falsy_probes_miss)).
Defined.

(** C10.  A text that parses to a truthy value that is no mapping, an array
    or a string, is returned as it is, from the top-level text and from a
    trace entry alike. *)
Theorem extracted_value_not_a_mapping :
  extract_json_from_flowise_response (VDict [("text", VStr "[1, 2]")])
  = Ok (VList [VInt 1; VInt 2])
  /\ extract_json_from_flowise_response (VDict [("text", VStr (quoted "hello"))])
     = Ok (VStr "hello")
  /\ extract_json_from_flowise_response
       (VDict [("agentFlowExecutedData", VList [trace_entry "[1, 2]"])])
     = Ok (VList [VInt 1; VInt 2])
  /\ exists resp v,
       extract_json_from_flowise_response resp = Ok v /\ forall d, v <> VDict d.
Proof.
  split; [computed |]. split; [computed |]. split; [computed |].
  exists (VDict [("text", VStr "[1, 2]")]), (VList [VInt 1; VInt 2]).
  split; [computed | discriminate].
Qed.

(** ** The transport *)

(** C7 (counterexample).  An empty overrides mapping is supplied and no
    [overrideConfig] is sent; and with no flow identifier nothing is sent
    at all. *)
Lemma empty_overrides_not_sent :
  map (fun q => dict_lookup (req_json q) "overrideConfig")
      (fst (call_flowise (demo_runtime demo_flow_id (Ok VNone)) "q" (Some [])))
  = [None]
  /\ fst (call_flowise (demo_runtime "" (Ok VNone)) "q" None) = [].
Proof. split; computed. Qed.

Section Configured.

(** A runtime in which the flow identifier is set. *)
Variable E : runtime.
Hypothesis flow_id_set : FLOWISE_CHATFLOW_ID E <> "".

(** C7 (amended).  When a flow identifier is configured, [call_flowise]
    sends exactly one POST, to [<base>/api/v1/prediction/<flow id>], with
    the body [{question, sessionId}] plus [overrideConfig] exactly when a
    non-empty overrides mapping is supplied, with a timeout of 180 seconds,
    and with the [Content-Type] header alone when no API key is configured
    and an [Authorization: Bearer] header after it when one is. *)
Theorem call_flowise_request (question : string) (extra : option dict) :
  exists req,
    fst (call_flowise E question extra) = [req]
    /\ req_url req
       = (FLOWISE_BASE_URL E ++ "/api/v1/prediction/" ++ FLOWISE_CHATFLOW_ID E)%string
    /\ req_json req
       = [("question", VStr question); ("sessionId", VStr (session_sid E))]
         ++ match extra with
            | Some (p :: x) => [("overrideConfig", VDict (p :: x))]
            | _ => []
            end
    /\ req_timeout req = 180%Z
    /\ req_headers req
       = ("Content-Type", "application/json")
         :: (if (FLOWISE_API_KEY E =? "")%string then []
             else [("Authorization", ("Bearer " ++ FLOWISE_API_KEY E)%string)]).
Proof.
  unfold call_flowise.
  destruct (String.eqb_spec (FLOWISE_CHATFLOW_ID E) "") as [H0 | _]; [contradiction |].
  eexists. split; [reflexivity |]. simpl.
  split; [reflexivity |]. split.
  - destruct extra as [[| p x] |]; reflexivity.
  - split; [reflexivity |].
    destruct (FLOWISE_API_KEY E =? "")%string; reflexivity.
Qed.

(** *** The handlers *)

(** The bodies of the requests of a call. *)
Lemma call_flowise_payload (question : string) (extra : option dict) :
  map req_json (fst (call_flowise E question extra))
  = [[("question", VStr question); ("sessionId", VStr (session_sid E))]
     ++ match extra with
        | Some (p :: x) => [("overrideConfig", VDict (p :: x))]
        | _ => []
        end].
Proof.
  unfold call_flowise.
  destruct (String.eqb_spec (FLOWISE_CHATFLOW_ID E) "") as [H0 | _]; [contradiction |].
  destruct extra as [[| p x] |]; reflexivity.
Qed.

(** The requests of a handler are those of its call. *)
Lemma sent_show_result (called : list request * result (value * value)) :
  sent (show_result E called) = fst called.
Proof.
  unfold show_result.
  destruct called as [reqs [[data raw] | e]]; simpl; [| reflexivity].
  destruct (render_decision E data) as [[d els] | e]; reflexivity.
Qed.

Lemma questions_sent_show_result (question : string) (extra : option dict) :
  questions_sent (show_result E (call_flowise E question extra))
  = [Some (VStr question)].
Proof.
  unfold questions_sent. rewrite sent_show_result.
  rewrite <- (map_map req_json (fun j => dict_lookup j "question")).
  rewrite call_flowise_payload. reflexivity.
Qed.

(** C6 (amended).  When the report form is submitted with the issue text
    and the location of the scenario, a flow identifier being configured,
    the [question] of the one outbound payload is the input text, then the
    line [Location: Tampines, Blk 210], then the line [Category:] with the
    selected category, and nothing else. *)
Theorem report_question_sent (c : category) :
  questions_sent (report_submit E lift_text lift_location c)
  = [Some (VStr (lift_text ++ nl ++ "Location: Tampines, Blk 210" ++ nl
                 ++ "Category: " ++ category_label c))].
Proof.
  unfold report_submit.
  replace (strip lift_text =? "")%string with false by computed.
  rewrite questions_sent_show_result.
  reflexivity.
Qed.

Section Answered.

(** The network answers every request with a response [r] of good status,
    whose body decodes to the mapping [resp]. *)
Variable r : response.
Variable resp : dict.
Hypothesis network_answers : forall req, requests_post E req = Ok r.
Hypothesis status_ok : raise_for_status r = Ok tt.
Hypothesis body_decoded : json r = Ok (VDict resp).

Lemma call_flowise_raises (question : string) (extra : option dict) (e : exn) :
  extract_json_from_flowise_response (VDict resp) = Raise e ->
  exists req, call_flowise E question extra = ([req], Raise e).
Proof.
  intros Hex. unfold call_flowise.
  destruct (String.eqb_spec (FLOWISE_CHATFLOW_ID E) "") as [H0 | _]; [contradiction |].
  eexists. f_equal.
  rewrite network_answers. simpl. rewrite status_ok. simpl.
  rewrite body_decoded. simpl. rewrite Hex. reflexivity.
Qed.

(** C2.  When no place the extractor probes yields a truthy parse (in
    particular when none yields any parse), the extractor raises, and the
    report handler that called for it shows the error and stops: past the
    spinner and the error message nothing is shown, no recommendation
    among it.  The evaluation handler does the same. *)
Theorem unparseable_response_not_rendered
  (issue_text location : string) (c : category) (s : scenario) :
  (forall cand, In (Try cand) (response_probes resp) ->
                forall v, _extract_json_anywhere cand = Ok v -> truthy v = false) ->
  strip issue_text <> "" ->
  exists e,
    extract_json_from_flowise_response (VDict resp) = Raise e
    /\ shown (report_submit E issue_text location c)
       = [StSpinner "Sending to Flowise for analysis…";
          StError ("Flowise call failed: " ++ exn_msg e)%string]
    /\ ended (report_submit E issue_text location c) = Stopped
    /\ shown (eval_run E s)
       = [StSpinner "Sending to Flowise for analysis…";
          StError ("Flowise call failed: " ++ exn_msg e)%string]
    /\ ended (eval_run E s) = Stopped.
Proof.
  intros Hmiss Htext.
  destruct (first_hit_or_raise_none (response_probes resp) Hmiss) as [e He].
  rewrite <- extract_first_hit in He.
  exists e. split; [exact He |].
  unfold report_submit, eval_run.
  destruct (String.eqb_spec (strip issue_text) "") as [H0 | _]; [contradiction |].
  destruct (call_flowise_raises (report_question issue_text location c)
              (Some [("location", VStr location);
                     ("issue_category", VStr (category_label c))]) e He) as [req1 ->].
  destruct (call_flowise_raises (eval_question s)
              (Some [("location", VStr (scenario_location s))]) e He) as [req2 ->].
  repeat (split; [reflexivity |]). reflexivity.
Qed.

End Answered.

End Configured.

(** C7, on a call with one override and no API key. *)
Lemma call_flowise_request_witness :
  exists req,
    fst (call_flowise (demo_runtime demo_flow_id (Ok VNone)) "q"
           (Some [("location", VStr lift_location)])) = [req]
    /\ req_url req
       = "https://cloud.flowiseai.com/api/v1/prediction/28bddf08-01dc-4472-aa7f-e6f7e2c0297f"
    /\ req_json req
       = [("question", VStr "q"); ("sessionId", VStr "session-1");
          ("overrideConfig", VDict [("location", VStr lift_location)])]
    /\ req_timeout req = 180%Z
    /\ req_headers req = [("Content-Type", "application/json")].
Proof.
  apply (call_flowise_request (demo_runtime demo_flow_id (Ok VNone))).
  discriminate.
Defined.

(** C6 (counterexample).  The question sent for the report form ends with
    a line for the category: it is not the text and the location line
    alone. *)
Lemma report_question_has_category :
  questions_sent (report_submit (demo_runtime demo_flow_id (Ok VNone))
                    lift_text lift_location AutoDetect)
  = [Some (VStr (lift_text ++ nl ++ "Location: Tampines, Blk 210" ++ nl
                 ++ "Category: Auto-detect"))]
  /\ (lift_text ++ nl ++ "Location: Tampines, Blk 210" ++ nl ++ "Category: Auto-detect")%string
     <> (lift_text ++ nl ++ "Location: Tampines, Blk 210")%string.
Proof.
  split; [computed |]. vm_compute. discriminate.
Qed.

(** C6, on the category [Town Council]. *)
Lemma report_question_sent_witness :
  questions_sent (report_submit (demo_runtime demo_flow_id (Ok VNone))
                    lift_text lift_location TownCouncil)
  = [Some (VStr (lift_text ++ nl ++ "Location: Tampines, Blk 210" ++ nl
                 ++ "Category: Town Council"))].
Proof.
  apply (report_question_sent (demo_runtime demo_flow_id (Ok VNone))).
  discriminate.
Defined.

(** The one probe of [refusal_response] misses. *)
Lemma nothing_parses_in_prose :
  forall cand, In (Try cand) (response_probes refusal_response) ->
               forall v, _extract_json_anywhere cand = Ok v -> truthy v = false.
Proof.
  intros cand [H | []] v Hv. injection H as <-.
  vm_compute in Hv. injection Hv as <-. reflexivity.
Defined.

(** C2, on a response that is a sentence of prose. *)
Lemma unparseable_response_not_rendered_witness :
  exists e,
    extract_json_from_flowise_response (VDict refusal_response) = Raise e
    /\ shown (report_submit (demo_runtime demo_flow_id (Ok (VDict refusal_response)))
                lift_text lift_location AutoDetect)
       = [StSpinner "Sending to Flowise for analysis…";
          StError ("Flowise call failed: " ++ exn_msg e)%string]
    /\ ended (report_submit (demo_runtime demo_flow_id (Ok (VDict refusal_response)))
                lift_text lift_location AutoDetect)
       = Stopped
    /\ shown (eval_run (demo_runtime demo_flow_id (Ok (VDict refusal_response)))
                (mk_scenario lift_text lift_location))
       = [StSpinner "Sending to Flowise for analysis…";
          StError ("Flowise call failed: " ++ exn_msg e)%string]
    /\ ended (eval_run (demo_runtime demo_flow_id (Ok (VDict refusal_response)))
                (mk_scenario lift_text lift_location))
       = Stopped.
Proof.
  apply (unparseable_response_not_rendered
           (demo_runtime demo_flow_id (Ok (VDict refusal_response)))
           ltac:(discriminate)
           (mk_response (Ok tt) (Ok (VDict refusal_response))) refusal_response
           (fun _ => eq_refl) eq_refl eq_refl
           lift_text lift_location AutoDetect (mk_scenario lift_text lift_location)).
  - exact nothing_parses_in_prose.
  - vm_compute. discriminate.
Defined.

(** ** Rendering *)




Section Rendering.

Variable E : runtime.

(** What is no mapping has no [get]: rendering it raises. *)
Lemma render_decision_list_raises (l : list value) :
  render_decision E (VList l) = Raise (AttributeError "list" "get").
Proof. reflexivity. Qed.


Lemma and_then_quiet {A B : Type} (a : A) (k : A -> showing B) :
  and_then (quiet (Ok a)) k = k a.
Proof. unfold and_then, quiet. destruct (k a); reflexivity. Qed.

(** Within the cap the conversions go through, and give the text. *)
Lemma str_capped_within (cap : N) (v : value) :
  over_cap cap v = false -> str_capped cap E v = Ok (py_str E v).
Proof. unfold str_capped. intros ->. reflexivity. Qed.

Lemma bullets_capped_within (cap : N) (items : list value) :
  existsb (over_cap cap) items = false ->
  bullets_capped cap E items = Ok (bullets E items).
Proof.
  unfold bullets_capped, bullets. intros H.
  assert (Hl : bullet_lines cap E items
               = Ok (map (fun s => ("- " ++ py_str E s)%string) items)).
  { induction items as [| s rest IH]; [reflexivity |].
    simpl in H. apply orb_false_iff in H. destruct H as [Hs Hrest].
    simpl. rewrite (str_capped_within cap s Hs). simpl.
    rewrite (IH Hrest). reflexivity. }
  rewrite Hl. reflexivity.
Qed.

Lemma list_shown_within (cap : N) (x : value) :
  existsb (over_cap cap) (if is_list x && truthy x then list_items x else []) = false ->
  (if is_list x && truthy x
   then b <~ quiet (bullets_capped cap E (list_items x)) ;; show (StMarkdown b false)
   else quiet (Ok tt))
  = (if is_list x && truthy x then [StMarkdown (bullets E (list_items x)) false] else [],
     Ok tt).
Proof.
  destruct (is_list x && truthy x); [| reflexivity].
  intros H. rewrite (bullets_capped_within cap _ H). reflexivity.
Qed.

Lemma questions_shown_within (cap : N) (x : value) :
  existsb (over_cap cap) (if is_list x && truthy x then list_items x else []) = false ->
  (if is_list x && truthy x
   then _ <~ show (StMarkdown "**Quick questions (if needed)**" false) ;;
        b <~ quiet (bullets_capped cap E (list_items x)) ;;
        show (StMarkdown b false)
   else quiet (Ok tt))
  = (if is_list x && truthy x
     then [StMarkdown "**Quick questions (if needed)**" false;
           StMarkdown (bullets E (list_items x)) false]
     else [],
     Ok tt).
Proof.
  destruct (is_list x && truthy x); [| reflexivity].
  intros H. cbn [and_then show]. rewrite (bullets_capped_within cap _ H). reflexivity.
Qed.

(** When no value that is printed is over the cap, the rendering under the
    cap shows what the rendering without a cap shows. *)
Lemma render_decision_capped_within (cap : N) (data : dict) :
  existsb (over_cap cap) (printed data) = false ->
  exists els,
    render_decision E (VDict data) = Ok (VDict data, els)
    /\ render_decision_capped cap E (VDict data) = (els, Ok (VDict data)).
Proof.
  unfold printed. rewrite !existsb_app. cbn [existsb].
  rewrite !orb_false_iff.
  intros [(Hu & Ha & Hab & Hub & _) (Hsteps & Hdetails & Hquestions)].
  eexists. split; [unfold render_decision; cbn [py_get bind]; reflexivity |].
  unfold render_decision_capped. cbn [py_get].
  do 7 (rewrite and_then_quiet; cbv beta). cbv zeta.
  rewrite (str_capped_within cap _ Hu), (str_capped_within cap _ Ha),
    (str_capped_within cap _ Hab), (str_capped_within cap _ Hub).
  rewrite (list_shown_within cap _ Hsteps), (list_shown_within cap _ Hdetails),
    (questions_shown_within cap _ Hquestions).
  cbn [bind and_then show quiet app]. rewrite app_nil_r. reflexivity.
Qed.

Lemma over_cap_off : forall v : value, over_cap 0 v = false.
Proof.
  fix IH 1. intros [| b | z | f | s | l | d]; try reflexivity.
  - simpl. induction l as [| x l IHl]; [reflexivity |].
    simpl. rewrite (IH x). exact IHl.
  - simpl. induction d as [| [k x] d IHd]; [reflexivity |].
    simpl. rewrite (IH x). exact IHd.
Qed.

(** [render_decision] is the rendering with the cap off. *)
Lemma render_decision_cap_off (data : value) :
  render_decision_capped 0 E data
  = match render_decision E data with
    | Ok (d, els) => (els, Ok d)
    | Raise e => ([], Raise e)
    end.
Proof.
  destruct data as [| b | z | f | s | l | d]; try reflexivity.
  assert (H : existsb (over_cap 0) (printed d) = false).
  { induction (printed d) as [| x xs IHxs]; [reflexivity |].
    simpl. rewrite over_cap_off. exact IHxs. }
  destruct (render_decision_capped_within 0 d H) as (els & H0 & H1).
  rewrite H0, H1. reflexivity.
Qed.


End Rendering.




(** ** Further properties

    *** The extractor *)

Lemma outermost_cons (f g : frame) (st : list frame) :
  outermost_is_object (f :: g :: st) = outermost_is_object (g :: st).
Proof. reflexivity. Qed.

Lemma parse_step_dict_bound (s s' : parse_state) (t : token) :
  dict_bound s = true -> parse_step s t = Some s' -> dict_bound s' = true.
Proof.
  intros Hs Hstep.
  destruct s as [st | st | st | d st | d k st | v [| [acc | d' k'] st]].
  - destruct st as [| f st]; [discriminate Hs |].
    destruct t; try discriminate Hstep; injection Hstep as <-; exact Hs.
  - destruct st as [| f st]; [discriminate Hs |].
    destruct t; try discriminate Hstep; injection Hstep as <-; exact Hs.
  - destruct t as [| | | | | | a]; try discriminate Hstep.
    + injection Hstep as <-. destruct st; [reflexivity | exact Hs].
    + destruct a; try discriminate Hstep. injection Hstep as <-. exact Hs.
  - destruct t as [| | | | | | a]; try discriminate Hstep.
    destruct a; try discriminate Hstep. injection Hstep as <-. exact Hs.
  - destruct t; try discriminate Hstep. injection Hstep as <-.
    destruct st; [reflexivity | exact Hs].
  - destruct t; discriminate Hstep.
  - destruct st as [| g st]; [discriminate Hs |].
    destruct t; try discriminate Hstep; injection Hstep as <-; exact Hs.
  - destruct t; try discriminate Hstep; injection Hstep as <-;
      (destruct st; [reflexivity | exact Hs]).
Qed.

Lemma parse_run_dict_bound (ts : list token) :
  forall (s : parse_state) (v : value),
    dict_bound s = true -> parse_run s ts = Some v -> is_dict v = true.
Proof.
  induction ts as [| t ts IH]; simpl; intros s v Hs Hrun.
  - destruct s as [st | st | st | d st | d k st | x [| f st]]; try discriminate Hrun.
    injection Hrun as <-. exact Hs.
  - destruct (parse_step s t) as [s' |] eqn:Hstep; [| discriminate Hrun].
    exact (IH s' v (parse_step_dict_bound s s' t Hs Hstep) Hrun).
Qed.

(** A text that starts with an opening brace parses to a mapping, if at all. *)
Lemma loads_brace_dict (r : string) (v : value) :
  Json.loads (String "{" r) = Some v -> is_dict v = true.
Proof.
  unfold Json.loads. simpl.
  destruct (lex_run LTop r) as [ts |]; [| discriminate].
  simpl. apply (parse_run_dict_bound ts (ExpKeyOrClose [])). reflexivity.
Qed.

Lemma re_search_braces_starts (t span : string) :
  re_search_braces t = Some span -> exists r, span = String "{" r.
Proof.
  induction t as [| c t IH]; simpl; [discriminate |].
  destruct (Ascii.eqb_spec c "{") as [-> | _]; [| exact IH].
  destruct (upto_last_rbrace t) as [p |]; [| discriminate].
  intros H. injection H as <-. eauto.
Qed.

(** What [_extract_json_anywhere] gives on a string. *)
Lemma extract_anywhere_str (s : string) :
  _extract_json_anywhere (VStr s) =
  Ok (if (strip s =? "")%string then VNone
      else match Json.loads (strip s) with
           | Some v => v
           | None =>
               match re_search_braces (strip s) with
               | Some span =>
                   match Json.loads span with Some v => v | None => VNone end
               | None => VNone
               end
           end).
Proof.
  unfold _extract_json_anywhere. rewrite py_or_str_empty. simpl.
  destruct (strip s =? "")%string; [reflexivity |].
  destruct (Json.loads (strip s)); [reflexivity |].
  destruct (re_search_braces (strip s)) as [span |]; [| reflexivity].
  destruct (Json.loads span); reflexivity.
Qed.

(** What parses out of the span of the braces is a mapping. *)
Lemma span_parse_is_dict (t span : string) (w : value) :
  re_search_braces t = Some span -> Json.loads span = Some w -> exists d, w = VDict d.
Proof.
  intros Hspan Hw. destruct (re_search_braces_starts _ _ Hspan) as [r ->].
  pose proof (loads_brace_dict r w Hw) as Hdict.
  destruct w; try discriminate Hdict. eauto.
Qed.

(** X1.  When the trimmed text does not parse as a whole, what
    [_extract_json_anywhere] salvages from it is a mapping, or nothing:
    an array, a string or a number is never lifted out of prose. *)
Theorem salvage_gives_mapping (text : string) (v : value) :
  Json.loads (strip text) = None ->
  _extract_json_anywhere (VStr text) = Ok v ->
  v = VNone \/ exists d, v = VDict d.
Proof.
  intros Hd. rewrite extract_anywhere_str, Hd.
  destruct (strip text =? "")%string; [intros H; injection H as <-; left; reflexivity |].
  destruct (re_search_braces (strip text)) as [span |] eqn:Hspan;
    [| intros H; injection H as <-; left; reflexivity].
  destruct (Json.loads span) as [w |] eqn:Hw;
    [| intros H; injection H as <-; left; reflexivity].
  intros H. injection H as <-. right.
  exact (span_parse_is_dict _ _ _ Hspan Hw).
Qed.

Lemma salvage_gives_mapping_witness :
  object_a = VNone \/ exists d, object_a = VDict d.
Proof.
  apply (salvage_gives_mapping prose_text object_a); computed.
Defined.

Lemma extract_anywhere_not_str (c : value) :
  is_str c = false ->
  _extract_json_anywhere c =
  if truthy c then Raise (AttributeError (type_name c) "strip") else Ok VNone.
Proof.
  intros Hc. unfold _extract_json_anywhere, py_or.
  destruct c as [| b | z | f | s | l | d]; try discriminate Hc; simpl.
  - reflexivity.
  - destruct b; reflexivity.
  - destruct (z =? 0)%Z; reflexivity.
  - destruct (float_nonzero f); reflexivity.
  - destruct l; reflexivity.
  - destruct d; reflexivity.
Qed.

(** X2.  A value the extractor returns was read from a string it probed:
    it is the parse of that whole string, trimmed, or else, the whole not
    parsing, it is the parse of the span from the first opening brace of
    the trimmed string to its last closing brace, and a mapping.  What is
    returned and is no mapping is thus the whole of some probed text. *)
Theorem returned_value_origin (resp : dict) (v : value) :
  extract_json_from_flowise_response (VDict resp) = Ok v ->
  exists s,
    In (Try (VStr s)) (response_probes resp)
    /\ (Json.loads (strip s) = Some v
        \/ (Json.loads (strip s) = None
            /\ exists span d,
                 re_search_braces (strip s) = Some span
                 /\ Json.loads span = Some v
                 /\ v = VDict d)).
Proof.
  rewrite extract_first_hit, first_hit_or_raise_ok, first_hit_some_iff.
  intros (pre & c & post & Hps & _ & Hc & Tv).
  assert (Hin : In (Try c) (response_probes resp)).
  { rewrite Hps. apply in_or_app. right. left. reflexivity. }
  destruct (is_str c) eqn:Hstr.
  - destruct c as [| b | z | f | s | l | d]; try discriminate Hstr.
    exists s. split; [exact Hin |].
    destruct (Json.loads (strip s)) as [w |] eqn:Hw.
    + left. rewrite extract_anywhere_str, Hw in Hc.
      destruct (strip s =? "")%string; injection Hc as <-; [discriminate Tv | reflexivity].
    + right. rewrite extract_anywhere_str, Hw in Hc.
      destruct (strip s =? "")%string; [injection Hc as <-; discriminate Tv |].
      destruct (re_search_braces (strip s)) as [span |] eqn:Hspan;
        [| injection Hc as <-; discriminate Tv].
      destruct (Json.loads span) as [w |] eqn:Hw2;
        [| injection Hc as <-; discriminate Tv].
      injection Hc as <-. split; [reflexivity |].
      destruct (span_parse_is_dict _ _ _ Hspan Hw2) as [d Hd].
      exists span, d. auto.
  - rewrite (extract_anywhere_not_str c Hstr) in Hc.
    destruct (truthy c); [discriminate Hc |].
    injection Hc as <-. discriminate Tv.
Qed.

(** X2, on a text that holds an object in prose. *)
Lemma returned_value_origin_witness :
  exists s,
    In (Try (VStr s)) (response_probes prose_response)
    /\ (Json.loads (strip s) = Some object_a
        \/ (Json.loads (strip s) = None
            /\ exists span d,
                 re_search_braces (strip s) = Some span
                 /\ Json.loads span = Some object_a
                 /\ object_a = VDict d)).
Proof.
  apply (returned_value_origin prose_response object_a). computed.
Defined.

(** X3.  A top-level [text] that is truthy and not a string makes the
    extractor raise [AttributeError] before it looks at the trace, whatever
    the trace holds. *)
Theorem text_not_a_string (resp : dict) (t : value) :
  dict_lookup resp "text" = Some t ->
  is_str t = false ->
  truthy t = true ->
  extract_json_from_flowise_response (VDict resp)
  = Raise (AttributeError (type_name t) "strip").
Proof.
  intros Ht Hstr Tt.
  unfold extract_json_from_flowise_response. simpl.
  unfold dict_get at 1. rewrite Ht, (extract_anywhere_not_str t Hstr), Tt.
  reflexivity.
Qed.

Lemma text_not_a_string_witness :
  extract_json_from_flowise_response
    (VDict [("text", VList [VStr object_a_text]);
            ("agentFlowExecutedData", VList [trace_entry object_a_text])])
  = Raise (AttributeError "list" "strip").
Proof.
  apply (text_not_a_string
           [("text", VList [VStr object_a_text]);
            ("agentFlowExecutedData", VList [trace_entry object_a_text])]
           (VList [VStr object_a_text])); reflexivity.
Defined.

Lemma text_blank_none (resp : dict) :
  text_blank resp ->
  _extract_json_anywhere (dict_get resp "text" (VStr "")) = Ok VNone.
Proof.
  intros H. unfold dict_get.
  destruct (dict_lookup resp "text") as [t |] eqn:Ht; [| reflexivity].
  destruct (H t Ht) as [Tt | (s & -> & Hs)].
  - destruct (is_str t) eqn:Hstr.
    + destruct t as [| b | z | f | s | l | d]; try discriminate Hstr.
      simpl in Tt. destruct (String.eqb_spec s ""); [subst; reflexivity | discriminate Tt].
    + rewrite (extract_anywhere_not_str t Hstr), Tt. reflexivity.
  - rewrite extract_anywhere_str, Hs. reflexivity.
Qed.

(** X4.  A response with nothing to probe, its text absent, falsy or blank
    and its trace absent or falsy, makes the extractor raise the
    [RuntimeError] that says the response held no JSON. *)
Theorem nothing_to_probe (resp : dict) :
  text_blank resp ->
  truthy (dict_get resp "agentFlowExecutedData" VNone) = false ->
  extract_json_from_flowise_response (VDict resp) = Raise (RuntimeError no_json_message).
Proof.
  intros Htext Htrace.
  unfold extract_json_from_flowise_response. simpl.
  rewrite (text_blank_none resp Htext). simpl.
  unfold py_or. rewrite Htrace. reflexivity.
Qed.

Lemma blank_text_is_blank :
  text_blank [("text", VStr ("  " ++ nl)); ("agentFlowExecutedData", VList [])].
Proof.
  intros t H. injection H as <-. right. exists ("  " ++ nl)%string. split; computed.
Defined.

Lemma nothing_to_probe_witness :
  extract_json_from_flowise_response
    (VDict [("text", VStr ("  " ++ nl)); ("agentFlowExecutedData", VList [])])
  = Raise (RuntimeError no_json_message).
Proof.
  apply (nothing_to_probe [("text", VStr ("  " ++ nl)); ("agentFlowExecutedData", VList [])]).
  - exact blank_text_is_blank.
  - reflexivity.
Defined.

Lemma utf8_chars_not_empty (a : ascii) (s : string) : utf8_chars (String a s) <> [].
Proof.
  simpl. destruct (utf8_chars s) as [| [| b c] cs]; try discriminate.
  destruct (is_continuation b); discriminate.
Qed.

(** Scanning strings backwards stops at the first of them. *)
Lemma loop_nodes_rev_strings (l : list string) :
  l <> [] -> loop_nodes (rev (map VStr l)) = Raise (AttributeError "str" "get").
Proof.
  intros Hl. rewrite <- map_rev.
  destruct (rev l) as [| c cs] eqn:Hr; [| reflexivity].
  apply (f_equal (@rev string)) in Hr. rewrite rev_involutive in Hr. contradiction.
Qed.

(** X5.  A trace that is truthy and no list never yields a value: once the
    text has given nothing, a number or [True] raises [TypeError] (it is
    not reversible), and a string or a mapping raises [AttributeError]
    (its characters, or its keys, have no [get]). *)
Theorem trace_not_a_list (resp : dict) (x p : value) :
  dict_lookup resp "agentFlowExecutedData" = Some x ->
  truthy x = true ->
  is_list x = false ->
  _extract_json_anywhere (dict_get resp "text" (VStr "")) = Ok p ->
  truthy p = false ->
  extract_json_from_flowise_response (VDict resp)
  = Raise (if is_str x || is_dict x
           then AttributeError "str" "get"
           else TypeError ("'" ++ type_name x ++ "' object is not reversible")%string).
Proof.
  intros Hx Tx Lx Hp Tp.
  unfold extract_json_from_flowise_response. simpl.
  rewrite Hp. simpl. rewrite Tp.
  unfold dict_get. rewrite Hx. unfold py_or. rewrite Tx.
  destruct x as [| b | z | f | s | l | d]; try discriminate Lx; try reflexivity.
  - destruct s as [| a s]; [discriminate Tx |].
    unfold py_reversed, bind.
    rewrite (loop_nodes_rev_strings _ (utf8_chars_not_empty a s)). reflexivity.
  - destruct d as [| kv d]; [discriminate Tx |].
    unfold py_reversed, bind.
    rewrite <- (map_map fst VStr), loop_nodes_rev_strings; [reflexivity | discriminate].
Qed.

Lemma trace_not_a_list_witness :
  extract_json_from_flowise_response
    (VDict [("agentFlowExecutedData", trace_entry object_a_text)])
  = Raise (AttributeError "str" "get").
Proof.
  apply (trace_not_a_list [("agentFlowExecutedData", trace_entry object_a_text)]
           (trace_entry object_a_text) VNone); reflexivity.
Defined.

Lemma space1_small (b : ascii) : is_space1 b = true -> (byte b <= 32)%N.
Proof. unfold is_space1. cbv zeta. intros H. bools; lia. Qed.

Lemma space2_high (a b : ascii) : is_space2 a b = true -> (128 <= byte b)%N.
Proof. unfold is_space2. intros H. bools; lia. Qed.

Lemma space3_high (a b c : ascii) :
  is_space3 a b c = true -> (128 <= byte b)%N /\ (128 <= byte c)%N.
Proof. unfold is_space3. cbv zeta. intros H. bools; lia. Qed.

Lemma not_space2_after (a b : ascii) : is_space1 b = true -> is_space2 a b = false.
Proof.
  intros H. destruct (is_space2 a b) eqn:E; [| reflexivity].
  apply space1_small in H. apply space2_high in E. lia.
Qed.

Lemma not_space3_mid (a b c : ascii) : is_space1 b = true -> is_space3 a b c = false.
Proof.
  intros H. destruct (is_space3 a b c) eqn:E; [| reflexivity].
  apply space1_small in H. apply space3_high in E. lia.
Qed.

Lemma not_space3_last (a b c : ascii) : is_space1 c = true -> is_space3 a b c = false.
Proof.
  intros H. destruct (is_space3 a b c) eqn:E; [| reflexivity].
  apply space1_small in H. apply space3_high in E. lia.
Qed.

Lemma all_space1_cons (c : ascii) (w : string) :
  all_space1 (String c w) = is_space1 c && all_space1 w.
Proof. reflexivity. Qed.

Lemma lstrip_all_space1 (w : string) : all_space1 w = true -> lstrip w = "".
Proof.
  induction w as [| c w IH]; [reflexivity |].
  rewrite all_space1_cons. intros H. apply andb_prop in H. destruct H as [Hc Hw].
  simpl. rewrite Hc. exact (IH Hw).
Qed.

Lemma lstrip_rev_all_space1 (w z : string) :
  all_space1 w = true -> lstrip_rev (w ++ z) = lstrip_rev z.
Proof.
  induction w as [| c w IH]; [reflexivity |].
  rewrite all_space1_cons. intros H. apply andb_prop in H. destruct H as [Hc Hw].
  simpl. rewrite Hc. exact (IH Hw).
Qed.

(** White space after [s] does not change what is trimmed off its front. *)
Lemma lstrip_app_space (w : string) (n : nat) :
  all_space1 w = true ->
  forall s, String.length s <= n ->
            lstrip (s ++ w) = match lstrip s with
                              | EmptyString => EmptyString
                              | x => (x ++ w)%string
                              end.
Proof.
  intros Hw. induction n as [| n IH]; intros s Hn.
  - destruct s; [| simpl in Hn; lia]. simpl. exact (lstrip_all_space1 w Hw).
  - destruct s as [| a r]; [exact (lstrip_all_space1 w Hw) |].
    simpl in Hn. simpl.
    destruct (is_space1 a) eqn:Ha; [apply IH; lia |].
    destruct r as [| b r2]; simpl.
    + destruct w as [| b w2]; [reflexivity |].
      rewrite all_space1_cons in Hw. apply andb_prop in Hw. destruct Hw as [Hb Hw2].
      rewrite (not_space2_after a b Hb).
      destruct w2 as [| c w3]; [reflexivity |].
      rewrite (not_space3_mid a b c Hb). reflexivity.
    + destruct (is_space2 a b) eqn:Hab; [apply IH; simpl in Hn; lia |].
      destruct r2 as [| c r3]; simpl.
      * destruct w as [| c w3]; [reflexivity |].
        rewrite all_space1_cons in Hw. apply andb_prop in Hw. destruct Hw as [Hc _].
        rewrite (not_space3_last a b c Hc). reflexivity.
      * destruct (is_space3 a b c) eqn:Habc; [apply IH; simpl in Hn; lia | reflexivity].
Qed.

Lemma list_ascii_of_string_app (x y : string) :
  list_ascii_of_string (x ++ y) = list_ascii_of_string x ++ list_ascii_of_string y.
Proof. induction x as [| c x IH]; simpl; [reflexivity | rewrite IH; reflexivity]. Qed.

Lemma string_of_list_ascii_app (x y : list ascii) :
  string_of_list_ascii (x ++ y) = (string_of_list_ascii x ++ string_of_list_ascii y)%string.
Proof. induction x as [| c x IH]; simpl; [reflexivity | rewrite IH; reflexivity]. Qed.

Lemma rev_string_app (x y : string) :
  rev_string (x ++ y) = (rev_string y ++ rev_string x)%string.
Proof.
  unfold rev_string.
  rewrite list_ascii_of_string_app, rev_app_distr, string_of_list_ascii_app. reflexivity.
Qed.

Lemma all_space1_rev (w : string) : all_space1 w = true -> all_space1 (rev_string w) = true.
Proof.
  unfold all_space1, rev_string. rewrite list_ascii_of_string_of_list_ascii.
  rewrite !forallb_forall. intros H c Hc. apply H, in_rev, Hc.
Qed.

Lemma rstrip_app_space (x w : string) :
  all_space1 w = true -> rstrip (x ++ w) = rstrip x.
Proof.
  intros Hw. unfold rstrip.
  rewrite rev_string_app, (lstrip_rev_all_space1 _ _ (all_space1_rev w Hw)). reflexivity.
Qed.

Lemma lstrip_space_app (w x : string) :
  all_space1 w = true -> lstrip (w ++ x) = lstrip x.
Proof.
  induction w as [| c w IH]; [reflexivity |].
  rewrite all_space1_cons. intros H. apply andb_prop in H. destruct H as [Hc Hw].
  simpl. rewrite Hc. exact (IH Hw).
Qed.

(** [strip] does not see white space put around a text. *)
Lemma strip_padded (pre s post : string) :
  all_space1 pre = true -> all_space1 post = true ->
  strip (pre ++ s ++ post) = strip s.
Proof.
  intros Hpre Hpost. unfold strip.
  rewrite (lstrip_space_app pre _ Hpre).
  rewrite (lstrip_app_space post (String.length s) Hpost s (le_n _)).
  destruct (lstrip s) as [| a x] eqn:Hl; [reflexivity |].
  apply rstrip_app_space, Hpost.
Qed.

(** X6.  ASCII white space put before and after a text, blanks, tabs and
    line breaks, does not change what [_extract_json_anywhere] reads from
    it. *)
Theorem padding_ignored (pre text post : string) :
  all_space1 pre = true -> all_space1 post = true ->
  _extract_json_anywhere (VStr (pre ++ text ++ post)) = _extract_json_anywhere (VStr text).
Proof.
  intros Hpre Hpost.
  rewrite !extract_anywhere_str, (strip_padded pre text post Hpre Hpost). reflexivity.
Qed.

Lemma padding_ignored_witness :
  _extract_json_anywhere (VStr ((nl ++ "  ") ++ prose_text ++ (" " ++ nl ++ nl)))
  = _extract_json_anywhere (VStr prose_text).
Proof.
  apply (padding_ignored (nl ++ "  ") prose_text (" " ++ nl ++ nl)); reflexivity.
Defined.

(** *** The handlers, call by call *)

Lemma call_flowise_fetch (E : runtime) (question : string) (extra : option dict) :
  FLOWISE_CHATFLOW_ID E <> "" ->
  exists req,
    call_flowise E question extra =
    ([req],
     raw <- fetch E req ;;
     data <- extract_json_from_flowise_response raw ;;
     Ok (data, raw)).
Proof.
  intros Hid. unfold call_flowise, fetch.
  destruct (String.eqb_spec (FLOWISE_CHATFLOW_ID E) "") as [H0 | _]; [contradiction |].
  eexists. f_equal.
  destruct (requests_post E _) as [r | e]; simpl; [| reflexivity].
  destruct (raise_for_status r) as [u | e]; simpl; [| reflexivity].
  reflexivity.
Qed.

Lemma call_flowise_no_flow_id (E : runtime) (question : string) (extra : option dict) :
  FLOWISE_CHATFLOW_ID E = "" ->
  call_flowise E question extra = ([], Raise (RuntimeError missing_flow_id)).
Proof. intros H. unfold call_flowise. rewrite H. reflexivity. Qed.

Section HandlerRuns.

Variable E : runtime.

(** X7.  With no flow identifier configured neither handler sends
    anything: the run shows the configuration error and stops. *)
Theorem flow_id_missing (issue_text location : string) (c : category) (s : scenario) :
  FLOWISE_CHATFLOW_ID E = "" ->
  strip issue_text <> "" ->
  report_submit E issue_text location c
  = mk_run [] [spinner; StError ("Flowise call failed: " ++ missing_flow_id)%string] Stopped
  /\ eval_run E s
     = mk_run [] [spinner; StError ("Flowise call failed: " ++ missing_flow_id)%string] Stopped.
Proof.
  intros Hid Htext. unfold report_submit, eval_run.
  destruct (String.eqb_spec (strip issue_text) "") as [H0 | _]; [contradiction |].
  rewrite !(call_flowise_no_flow_id E _ _ Hid). split; reflexivity.
Qed.

(** X8.  A run of either handler sends at most one request: the report
    handler one exactly when the issue text is not blank and a flow
    identifier is configured, the evaluation handler one exactly when a
    flow identifier is configured. *)
Theorem one_request_per_run (issue_text location : string) (c : category) (s : scenario) :
  length (sent (report_submit E issue_text location c))
  = (if (strip issue_text =? "")%string || (FLOWISE_CHATFLOW_ID E =? "")%string
     then 0 else 1)
  /\ length (sent (eval_run E s))
     = (if (FLOWISE_CHATFLOW_ID E =? "")%string then 0 else 1).
Proof.
  assert (Hcall : forall q x,
             length (sent (show_result E (call_flowise E q x)))
             = if (FLOWISE_CHATFLOW_ID E =? "")%string then 0 else 1).
  { intros q x. rewrite sent_show_result. unfold call_flowise.
    destruct (FLOWISE_CHATFLOW_ID E =? "")%string; reflexivity. }
  unfold report_submit, eval_run. split; [| apply Hcall].
  destruct (strip issue_text =? "")%string; [reflexivity | apply Hcall].
Qed.

Section WithFlowId.

Hypothesis flow_id_set : FLOWISE_CHATFLOW_ID E <> "".

Lemma show_result_failed (question : string) (extra : option dict) (e : exn) :
  (forall req,
      (raw <- fetch E req ;; data <- extract_json_from_flowise_response raw ;; Ok (data, raw))
      = Raise e) ->
  exists req,
    show_result E (call_flowise E question extra)
    = mk_run [req] [spinner; StError ("Flowise call failed: " ++ exn_msg e)%string] Stopped.
Proof.
  intros H. destruct (call_flowise_fetch E question extra flow_id_set) as [req ->].
  exists req. rewrite H. reflexivity.
Qed.

(** X9.  When the network call fails, [requests.post] raising, the status
    being an error, or the body being no JSON, the handlers show that
    exception's message after [Flowise call failed:] and stop, having sent
    one request; what the body holds plays no part. *)
Theorem transport_error_reported (e : exn)
  (issue_text location : string) (c : category) (s : scenario) :
  (forall req, fetch E req = Raise e) ->
  strip issue_text <> "" ->
  (exists req,
      report_submit E issue_text location c
      = mk_run [req] [spinner; StError ("Flowise call failed: " ++ exn_msg e)%string] Stopped)
  /\ (exists req,
         eval_run E s
         = mk_run [req] [spinner; StError ("Flowise call failed: " ++ exn_msg e)%string] Stopped).
Proof.
  intros Hfetch Htext. unfold report_submit, eval_run.
  destruct (String.eqb_spec (strip issue_text) "") as [H0 | _]; [contradiction |].
  split; apply show_result_failed; intros req; rewrite Hfetch; reflexivity.
Qed.

Section Fetched.

(** The network answers every request with the body [raw]. *)
Variable raw : value.
Hypothesis fetched : forall req, fetch E req = Ok raw.

Lemma call_flowise_ok (question : string) (extra : option dict) (data : value) :
  extract_json_from_flowise_response raw = Ok data ->
  exists req, call_flowise E question extra = ([req], Ok (data, raw)).
Proof.
  intros Hx. destruct (call_flowise_fetch E question extra flow_id_set) as [req ->].
  exists req. rewrite fetched. simpl. rewrite Hx. reflexivity.
Qed.

(** X10.  After a call that succeeds with a mapping, the handlers show the
    heading and then exactly what [render_decision] shows for that
    mapping, followed by the raw response when the debug box is ticked, and
    the run completes. *)
Theorem decision_rendered (d : dict)
  (issue_text location : string) (c : category) (s : scenario) :
  extract_json_from_flowise_response raw = Ok (VDict d) ->
  strip issue_text <> "" ->
  exists els,
    render_decision E (VDict d) = Ok (VDict d, els)
    /\ (exists req,
           report_submit E issue_text location c
           = mk_run [req] ([spinner; heading] ++ els ++ debug_view E raw) Completed)
    /\ (exists req,
           eval_run E s
           = mk_run [req] ([spinner; heading] ++ els ++ debug_view E raw) Completed).
Proof.
  intros Hx Htext.
  destruct (render_decision E (VDict d)) as [[d' els] | e] eqn:Hr; [| discriminate Hr].
  assert (d' = VDict d) as ->.
  { unfold render_decision in Hr. cbn [py_get bind] in Hr. injection Hr as <- _. reflexivity. }
  exists els. split; [reflexivity |].
  unfold report_submit, eval_run.
  destruct (String.eqb_spec (strip issue_text) "") as [H0 | _]; [contradiction |].
  split.
  - destruct (call_flowise_ok (report_question issue_text location c)
                (Some [("location", VStr location);
                       ("issue_category", VStr (category_label c))]) _ Hx) as [req ->].
    exists req. unfold show_result. rewrite Hr. reflexivity.
  - destruct (call_flowise_ok (eval_question s)
                (Some [("location", VStr (scenario_location s))]) _ Hx) as [req ->].
    exists req. unfold show_result. rewrite Hr. reflexivity.
Qed.

(** X11.  After a call that succeeds with a value that is no mapping, an
    array or a string that the extractor returned as it was, the handlers
    show the heading and end on an [AttributeError] that nobody catches:
    the [try] around the call is already left. *)
Theorem non_mapping_uncaught (data : value)
  (issue_text location : string) (c : category) (s : scenario) :
  extract_json_from_flowise_response raw = Ok data ->
  is_dict data = false ->
  strip issue_text <> "" ->
  (exists req,
      report_submit E issue_text location c
      = mk_run [req] [spinner; heading] (Uncaught (AttributeError (type_name data) "get")))
  /\ (exists req,
         eval_run E s
         = mk_run [req] [spinner; heading] (Uncaught (AttributeError (type_name data) "get"))).
Proof.
  intros Hx Hd Htext.
  assert (Hr : render_decision E data = Raise (AttributeError (type_name data) "get")).
  { destruct data; try reflexivity. discriminate Hd. }
  unfold report_submit, eval_run.
  destruct (String.eqb_spec (strip issue_text) "") as [H0 | _]; [contradiction |].
  split.
  - destruct (call_flowise_ok (report_question issue_text location c)
                (Some [("location", VStr location);
                       ("issue_category", VStr (category_label c))]) _ Hx) as [req ->].
    exists req. unfold show_result. rewrite Hr. reflexivity.
  - destruct (call_flowise_ok (eval_question s)
                (Some [("location", VStr (scenario_location s))]) _ Hx) as [req ->].
    exists req. unfold show_result. rewrite Hr. reflexivity.
Qed.

End Fetched.

End WithFlowId.

End HandlerRuns.

(** X7, with the flow identifier set to the empty string. *)
Lemma flow_id_missing_witness :
  report_submit (demo_runtime "" (Ok VNone)) lift_text lift_location AutoDetect
  = mk_run [] [spinner; StError ("Flowise call failed: " ++ missing_flow_id)%string] Stopped
  /\ eval_run (demo_runtime "" (Ok VNone)) (mk_scenario lift_text lift_location)
     = mk_run [] [spinner; StError ("Flowise call failed: " ++ missing_flow_id)%string] Stopped.
Proof.
  apply (flow_id_missing (demo_runtime "" (Ok VNone))); [reflexivity |].
  vm_compute. discriminate.
Defined.

(** X9, on a status 500 over a body that holds an object. *)
Lemma transport_error_reported_witness :
  (exists req,
      report_submit http_error_runtime lift_text lift_location AutoDetect
      = mk_run [req] [spinner; StError ("Flowise call failed: " ++ exn_msg http_error)%string]
               Stopped)
  /\ (exists req,
         eval_run http_error_runtime (mk_scenario lift_text lift_location)
         = mk_run [req] [spinner; StError ("Flowise call failed: " ++ exn_msg http_error)%string]
                  Stopped).
Proof.
  apply (transport_error_reported http_error_runtime ltac:(discriminate) http_error).
  - intros req. reflexivity.
  - vm_compute. discriminate.
Defined.

(** X10, on a response whose text is an object. *)
Lemma decision_rendered_witness :
  exists els,
    render_decision (demo_runtime demo_flow_id (Ok (VDict [("text", VStr object_a_text)])))
      object_a = Ok (object_a, els)
    /\ (exists req,
           report_submit (demo_runtime demo_flow_id (Ok (VDict [("text", VStr object_a_text)])))
             lift_text lift_location AutoDetect
           = mk_run [req] ([spinner; heading] ++ els ++ []) Completed)
    /\ (exists req,
           eval_run (demo_runtime demo_flow_id (Ok (VDict [("text", VStr object_a_text)])))
             (mk_scenario lift_text lift_location)
           = mk_run [req] ([spinner; heading] ++ els ++ []) Completed).
Proof.
  apply (decision_rendered
           (demo_runtime demo_flow_id (Ok (VDict [("text", VStr object_a_text)])))
           ltac:(discriminate) (VDict [("text", VStr object_a_text)]) (fun _ => eq_refl)
           [("a", VInt 1)]).
  - computed.
  - vm_compute. discriminate.
Defined.

(** X11, on a response whose text is an array. *)
Lemma non_mapping_uncaught_witness :
  (exists req,
      report_submit (demo_runtime demo_flow_id (Ok (VDict [("text", VStr "[1, 2]")])))
        lift_text lift_location AutoDetect
      = mk_run [req] [spinner; heading] (Uncaught (AttributeError "list" "get")))
  /\ (exists req,
         eval_run (demo_runtime demo_flow_id (Ok (VDict [("text", VStr "[1, 2]")])))
           (mk_scenario lift_text lift_location)
         = mk_run [req] [spinner; heading] (Uncaught (AttributeError "list" "get"))).
Proof.
  apply (non_mapping_uncaught
           (demo_runtime demo_flow_id (Ok (VDict [("text", VStr "[1, 2]")])))
           ltac:(discriminate) (VDict [("text", VStr "[1, 2]")]) (fun _ => eq_refl)
           (VList [VInt 1; VInt 2])).
  - computed.
  - reflexivity.
  - vm_compute. discriminate.
Defined.

(** *** Rendering: the lists *)




Section Lists.

Variable E : runtime.
Variable data : dict.





End Lists.



(** *** The chat tab *)


Lemma chat_pretty_mapping (E : runtime) (d : dict) :
  exists pretty, chat_pretty E (VDict d) = Ok pretty.
Proof. unfold chat_pretty. cbn [py_get bind]. eexists. reflexivity. Qed.

Lemma chat_pretty_not_mapping (E : runtime) (data : value) :
  is_dict data = false ->
  chat_pretty E data = Raise (AttributeError (type_name data) "get").
Proof. destruct data; try reflexivity. discriminate. Qed.

Section Chat.

Variable E : runtime.
Variable history : list message.

(** X16.  A run of the chat tab only adds to the conversation: the turns
    kept so far stay as they are and in order, an input adds the user's
    turn and at most one turn of the assistant after it, and a run without
    input adds nothing and sends nothing. *)
Theorem chat_history_grows (user_msg : option string) :
  exists added,
    chat_messages (chat_tab E history user_msg) = history ++ added
    /\ match user_msg with
       | Some (String a m) =>
           exists reply,
             added = mk_message "user" (String a m) :: reply
             /\ length reply <= 1
             /\ (forall t, In t reply -> role t = "assistant")
       | _ => added = [] /\ chat_sent (chat_tab E history user_msg) = []
       end.
Proof.
  destruct user_msg as [[| a m] |];
    try (exists []; rewrite app_nil_r; repeat split; reflexivity).
  unfold chat_tab.
  destruct (call_flowise E (String a m) None) as [reqs [[data raw] | e]].
  - destruct (chat_pretty E data) as [pretty | e]; simpl.
    + exists [mk_message "user" (String a m); mk_message "assistant" pretty].
      rewrite <- app_assoc. split; [reflexivity |].
      eexists. split; [reflexivity |]. split; [simpl; lia |].
      intros t [<- | []]. reflexivity.
    + exists [mk_message "user" (String a m)]. split; [reflexivity |].
      exists []. split; [reflexivity |]. split; [simpl; lia |]. intros t [].
  - simpl. eexists. rewrite <- app_assoc. split; [reflexivity |].
    eexists. split; [reflexivity |]. split; [simpl; lia |].
    intros t [<- | []]. reflexivity.
Qed.

(** X17.  Every run shows the caption and the whole conversation so far
    before anything new; and what a run adds to the conversation is what it
    showed in its new bubbles, role by role and text by text, so that the
    next run shows it again (an error then as plain Markdown). *)
Theorem chat_replayed (user_msg : option string) :
  exists new,
    chat_shown (chat_tab E history user_msg)
    = ChatCaption chat_caption :: replay history ++ new
    /\ map (fun t => Some (role t, content t))
           (skipn (length history) (chat_messages (chat_tab E history user_msg)))
       = filter (fun o => match o with Some _ => true | None => false end)
                (map bubble_text new).
Proof.
  assert (Hskip : forall added : list message, skipn (length history) (history ++ added) = added).
  { intros added. rewrite skipn_app, skipn_all, Nat.sub_diag. reflexivity. }
  destruct user_msg as [[| a m] |];
    try (exists []; simpl; rewrite app_nil_r, skipn_all; split; reflexivity).
  unfold chat_tab.
  destruct (call_flowise E (String a m) None) as [reqs [[data raw] | e]].
  - destruct (chat_pretty E data) as [pretty | e]; simpl.
    + eexists. rewrite <- !app_assoc, Hskip. split; [reflexivity |].
      simpl. destruct (show_debug E); reflexivity.
    + eexists. rewrite Hskip. split; [reflexivity |]. reflexivity.
  - simpl. eexists. rewrite <- !app_assoc, Hskip. split; [reflexivity |]. reflexivity.
Qed.

Section ChatWithFlowId.

Hypothesis flow_id_set : FLOWISE_CHATFLOW_ID E <> "".

(** X18.  The chat tab sends the user's message as it is, without any
    override: the body is the question and the session identifier, and
    nothing else. *)
Theorem chat_question_verbatim (a : ascii) (m : string) :
  map req_json (chat_sent (chat_tab E history (Some (String a m))))
  = [[("question", VStr (String a m)); ("sessionId", VStr (session_sid E))]].
Proof.
  transitivity (map req_json (fst (call_flowise E (String a m) None)));
    [| exact (call_flowise_payload E flow_id_set (String a m) None)].
  unfold chat_tab.
  destruct (call_flowise E (String a m) None) as [reqs [[data raw] | e]]; [| reflexivity].
  destruct (chat_pretty E data); reflexivity.
Qed.

(** X19.  When the call fails the chat tab answers in the assistant's
    bubble with an error box, keeps that answer in the conversation after
    the user's turn, and stops; the turns before are untouched. *)
Theorem chat_failure_kept (e : exn) (a : ascii) (m : string) :
  (forall req,
      (raw <- fetch E req ;; data <- extract_json_from_flowise_response raw ;; Ok (data, raw))
      = Raise e) ->
  let failed := ("Flowise call failed: " ++ exn_msg e)%string in
  exists req,
    chat_tab E history (Some (String a m))
    = mk_chat_run [req]
        (ChatCaption chat_caption :: replay history
         ++ [user_bubble (String a m); ChatElement (StSpinner "Sending to Flowise…");
             ChatMessage "assistant" (StError failed)])
        Stopped
        (history ++ [mk_message "user" (String a m); mk_message "assistant" failed]).
Proof.
  intros H failed. unfold chat_tab.
  destruct (call_flowise_fetch E (String a m) None flow_id_set) as [req ->].
  exists req. rewrite H. simpl. rewrite <- !app_assoc. reflexivity.
Qed.

(** X20.  When the extractor returned a value that is no mapping, the chat
    tab ends on an [AttributeError] that nobody catches: the user's turn is
    kept and shown, and no answer is. *)
Theorem chat_answer_not_mapping (raw data : value) (a : ascii) (m : string) :
  (forall req, fetch E req = Ok raw) ->
  extract_json_from_flowise_response raw = Ok data ->
  is_dict data = false ->
  exists req,
    chat_tab E history (Some (String a m))
    = mk_chat_run [req]
        (ChatCaption chat_caption :: replay history
         ++ [user_bubble (String a m); ChatElement (StSpinner "Sending to Flowise…")])
        (Uncaught (AttributeError (type_name data) "get"))
        (history ++ [mk_message "user" (String a m)]).
Proof.
  intros Hf Hx Hd. unfold chat_tab.
  destruct (call_flowise_ok E flow_id_set raw Hf (String a m) None data Hx) as [req ->].
  exists req. rewrite (chat_pretty_not_mapping E data Hd). reflexivity.
Qed.

End ChatWithFlowId.


End Chat.

(** *** Settings, session and sidebar *)

Lemma call_flowise_session (E : runtime) (question : string) (extra : option dict)
  (req : request) :
  In req (fst (call_flowise E question extra)) ->
  dict_lookup (req_json req) "sessionId" = Some (VStr (session_sid E)).
Proof.
  unfold call_flowise.
  destruct (FLOWISE_CHATFLOW_ID E =? "")%string; [intros [] |].
  intros [<- | []]. destruct extra as [[| p x] |]; reflexivity.
Qed.

Lemma chat_sent_session (E : runtime) (h : list message) (user_msg : option string)
  (req : request) :
  In req (chat_sent (chat_tab E h user_msg)) ->
  dict_lookup (req_json req) "sessionId" = Some (VStr (session_sid E)).
Proof.
  destruct user_msg as [[| a m] |]; try (intros []).
  unfold chat_tab. intros H. apply (call_flowise_session E (String a m) None).
  destruct (call_flowise E (String a m) None) as [reqs [[data raw] | e]]; [| exact H].
  destruct (chat_pretty E data); exact H.
Qed.

Lemma report_sent_session (E : runtime) (issue_text location : string) (c : category)
  (req : request) :
  In req (sent (report_submit E issue_text location c)) ->
  dict_lookup (req_json req) "sessionId" = Some (VStr (session_sid E)).
Proof.
  unfold report_submit. destruct (strip issue_text =? "")%string; [intros [] |].
  rewrite sent_show_result. apply call_flowise_session.
Qed.

Lemma eval_sent_session (E : runtime) (s : scenario) (req : request) :
  In req (sent (eval_run E s)) ->
  dict_lookup (req_json req) "sessionId" = Some (VStr (session_sid E)).
Proof. unfold eval_run. rewrite sent_show_result. apply call_flowise_session. Qed.

(** A run of the script leaves in the session the identifier it ran with,
    and all its requests carry it. *)
Lemma script_session (E : runtime) (uuid : string) (ss : session_state) (i : inputs) :
  let sid := snd (init_session ss uuid) in
  ss_sid (fst (script E uuid ss i)) = Some sid
  /\ forall req, In req (script_sent (snd (script E uuid ss i))) ->
                 dict_lookup (req_json req) "sessionId" = Some (VStr sid).
Proof.
  unfold script. destruct (init_session ss uuid) as [h sid]. cbn [snd].
  set (E1 := with_sid E sid).
  assert (Hrep : forall req,
             In req (match (match in_report i with
                            | Some (t, l, c) => Some (report_submit E1 t l c)
                            | None => None
                            end) with Some x => sent x | None => [] end) ->
             dict_lookup (req_json req) "sessionId" = Some (VStr sid)).
  { destruct (in_report i) as [[[t l] c] |]; [| intros req []].
    intros req. exact (report_sent_session E1 t l c req). }
  set (report := match in_report i with
                 | Some (t, l, c) => Some (report_submit E1 t l c)
                 | None => None
                 end) in *.
  assert (Hchat : forall req, In req (chat_sent (chat_tab E1 h (in_chat i))) ->
                              dict_lookup (req_json req) "sessionId" = Some (VStr sid)).
  { intros req. exact (chat_sent_session E1 h (in_chat i) req). }
  destruct (completed (part_ended report)); cbn [negb].
  2: { split; [reflexivity |]. unfold script_sent. cbn.
       intros req H. rewrite app_nil_r in H. exact (Hrep req H). }
  destruct (completed (chat_ended (chat_tab E1 h (in_chat i)))); cbn [negb].
  2: { split; [reflexivity |]. unfold script_sent. cbn.
       intros req H. rewrite app_nil_r in H.
       apply in_app_or in H. destruct H as [H | H]; [exact (Hrep req H) | exact (Hchat req H)]. }
  destruct (scenario_named (in_selected i)) as [s |].
  - split; [reflexivity |]. unfold script_sent. cbn.
    intros req H. apply in_app_or in H. destruct H as [H | H]; [exact (Hrep req H) |].
    apply in_app_or in H. destruct H as [H | H]; [exact (Hchat req H) |].
    destruct (in_run i); [| destruct H]. exact (eval_sent_session E1 s req H).
  - split; [reflexivity |]. unfold script_sent. cbn.
    intros req H. rewrite app_nil_r in H.
    apply in_app_or in H. destruct H as [H | H]; [exact (Hrep req H) | exact (Hchat req H)].
Qed.

Lemma session_runs_kept_id (steps : list (runtime * string * inputs)) :
  forall (ss : session_state) (sid : string),
    ss_sid ss = Some sid ->
    ss_sid (fst (session_runs ss steps)) = Some sid
    /\ forall r req,
         In r (snd (session_runs ss steps)) -> In req (script_sent r) ->
         dict_lookup (req_json req) "sessionId" = Some (VStr sid).
Proof.
  induction steps as [| [[E uuid] i] rest IH]; intros ss sid Hsid.
  - split; [exact Hsid | intros r req []].
  - simpl. pose proof (script_session E uuid ss i) as [Hs Hr].
    unfold init_session in Hs, Hr. rewrite Hsid in Hs, Hr. cbn [snd] in Hs, Hr.
    destruct (script E uuid ss i) as [ss1 r1]. cbn [fst snd] in Hs, Hr.
    destruct (IH ss1 sid Hs) as [H1 H2].
    destruct (session_runs ss1 rest) as [ss2 rs]. cbn [fst snd] in *.
    split; [exact H1 |].
    intros r req [<- | Hin] Hreq; [exact (Hr req Hreq) | exact (H2 r req Hin Hreq)].
Qed.

(** X22.  Whatever the runs of the script in a session, whichever handler
    fires in them and whatever UUID each run draws, every request of the
    session carries one and the same session identifier: the one the
    session holds, or else the one drawn in its first run. *)
Theorem session_id_stable (ss : session_state)
  (steps : list (runtime * string * inputs)) (r : script_run) (req : request) :
  In r (snd (session_runs ss steps)) ->
  In req (script_sent r) ->
  dict_lookup (req_json req) "sessionId" = Some (VStr (session_id_of ss steps)).
Proof.
  unfold session_id_of. destruct (ss_sid ss) as [sid |] eqn:Hsid.
  - exact (proj2 (session_runs_kept_id steps ss sid Hsid) r req).
  - destruct steps as [| [[E uuid] i] rest]; [intros [] |].
    simpl. pose proof (script_session E uuid ss i) as [Hs Hr].
    unfold init_session in Hs, Hr. rewrite Hsid in Hs, Hr. cbn [snd] in Hs, Hr.
    destruct (script E uuid ss i) as [ss1 r1]. cbn [fst snd] in Hs, Hr.
    pose proof (session_runs_kept_id rest ss1 uuid Hs) as [_ H2].
    destruct (session_runs ss1 rest) as [ss2 rs]. cbn [fst snd] in *.
    intros [<- | Hin] Hreq; [exact (Hr req Hreq) | exact (H2 r req Hin Hreq)].
Qed.

Lemma chat_tab_keeps_history (E : runtime) (h : list message) (user_msg : option string) :
  exists added, chat_messages (chat_tab E h user_msg) = h ++ added.
Proof.
  destruct user_msg as [[| a m] |]; try (exists []; rewrite app_nil_r; reflexivity).
  unfold chat_tab.
  destruct (call_flowise E (String a m) None) as [reqs [[data raw] | e]].
  - destruct (chat_pretty E data); simpl; [rewrite <- app_assoc |]; eexists; reflexivity.
  - simpl. rewrite <- app_assoc. eexists. reflexivity.
Qed.

(** A run of the script only adds to the conversation. *)
Lemma script_keeps_history (E : runtime) (uuid : string) (ss : session_state) (i : inputs) :
  exists added, history_of (fst (script E uuid ss i)) = history_of ss ++ added.
Proof.
  unfold script, init_session. fold (history_of ss).
  set (sid := match ss_sid ss with Some s => s | None => uuid end).
  destruct (chat_tab_keeps_history (with_sid E sid) (history_of ss) (in_chat i))
    as [added H].
  destruct (negb (completed (part_ended _)));
    [exists []; rewrite app_nil_r; reflexivity |].
  destruct (negb (completed (chat_ended _))); [exists added; exact H |].
  destruct (scenario_named (in_selected i)); exists added; exact H.
Qed.

(** X23.  Over the runs of the script in a session, whichever handler
    fires in them, the conversation only grows at its end: what the session
    held before is the beginning of what it holds after, turn for turn. *)
Theorem session_history_grows (steps : list (runtime * string * inputs)) :
  forall ss : session_state,
  exists added,
    history_of (fst (session_runs ss steps)) = history_of ss ++ added.
Proof.
  induction steps as [| [[E uuid] i] rest IH]; intros ss.
  - exists []. rewrite app_nil_r. reflexivity.
  - simpl. destruct (script_keeps_history E uuid ss i) as [added1 H1].
    destruct (script E uuid ss i) as [ss1 r1]. cbn [fst] in H1.
    destruct (IH ss1) as [added2 H2].
    destruct (session_runs ss1 rest) as [ss2 rs]. cbn [fst] in *.
    exists (added1 ++ added2). rewrite H2, H1, app_assoc. reflexivity.
Qed.

(** X24.  The sidebar says whether an API key is set and nothing more about
    it: two runtimes that differ in their keys only, both set or both not,
    have the same sidebar. *)
Theorem sidebar_hides_key (E1 E2 : runtime) :
  FLOWISE_BASE_URL E1 = FLOWISE_BASE_URL E2 ->
  FLOWISE_CHATFLOW_ID E1 = FLOWISE_CHATFLOW_ID E2 ->
  show_debug E1 = show_debug E2 ->
  (FLOWISE_API_KEY E1 = "" <-> FLOWISE_API_KEY E2 = "") ->
  sidebar E1 = sidebar E2.
Proof.
  intros Hb Hi Hd Hk. unfold sidebar. rewrite Hb, Hi, Hd.
  destruct (String.eqb_spec (FLOWISE_API_KEY E1) "") as [H1 | H1];
    destruct (String.eqb_spec (FLOWISE_API_KEY E2) "") as [H2 | H2];
    try reflexivity; exfalso; tauto.
Qed.

Lemma sidebar_hides_key_witness :
  sidebar (keyed_runtime "sk-first") = sidebar (keyed_runtime "another-key").
Proof.
  apply (sidebar_hides_key (keyed_runtime "sk-first") (keyed_runtime "another-key"));
    try reflexivity.
  split; discriminate.
Defined.

(** X25.  Of a flow identifier the sidebar shows the first eight characters
    and the last six, with an ellipsis for what lies between. *)
Theorem sidebar_abbreviates_id (E : runtime) (first middle last : list string) :
  utf8_chars (FLOWISE_CHATFLOW_ID E) = first ++ middle ++ last ->
  length first = 8 ->
  length last = 6 ->
  In (SideCaption ("Chatflow ID: " ++ String.concat "" first ++ "…"
                   ++ String.concat "" last))
     (sidebar E).
Proof.
  intros Hc Hf Hl. unfold sidebar.
  destruct (String.eqb_spec (FLOWISE_CHATFLOW_ID E) "") as [H0 | _].
  { rewrite H0 in Hc. destruct first; discriminate. }
  unfold str_prefix, str_suffix. rewrite Hc.
  rewrite firstn_app, Hf, Nat.sub_diag, firstn_all2, app_nil_r by lia.
  replace (length (first ++ middle ++ last) - 6) with (length (first ++ middle))
    by (rewrite !length_app; lia).
  rewrite app_assoc, skipn_app, skipn_all, Nat.sub_diag. simpl.
  do 5 right. left. reflexivity.
Qed.

Lemma sidebar_abbreviates_id_witness :
  In (SideCaption "Chatflow ID: 28bddf08…c0297f")
     (sidebar (keyed_runtime "")).
Proof.
  apply (sidebar_abbreviates_id (keyed_runtime "")
           ["2"; "8"; "b"; "d"; "d"; "f"; "0"; "8"]
           (utf8_chars "-01dc-4472-aa7f-e6f7e2")
           ["c"; "0"; "2"; "9"; "7"; "f"]); reflexivity.
Defined.

Lemma rev_string_involutive (s : string) : rev_string (rev_string s) = s.
Proof.
  unfold rev_string.
  rewrite list_ascii_of_string_of_list_ascii, rev_involutive.
  apply string_of_list_ascii_of_string.
Qed.

Lemma drop_slashes_split (z : string) :
  exists sl, z = (sl ++ drop_slashes z)%string /\ all_slashes sl = true.
Proof.
  induction z as [| c z (sl & Hz & Hsl)]; [exists ""; split; reflexivity |].
  simpl. destruct (c =? "/")%char eqn:Hc.
  - exists (String c sl). split; [simpl; rewrite <- Hz; reflexivity |].
    unfold all_slashes. simpl. rewrite Hc. exact Hsl.
  - exists "". split; reflexivity.
Qed.

Lemma drop_slashes_head (z r : string) : drop_slashes z <> String "/" r.
Proof.
  induction z as [| c z IH]; simpl; [discriminate |].
  destruct (c =? "/")%char eqn:Hc; [exact IH |].
  intros H. injection H as -> _. discriminate Hc.
Qed.

Lemma all_slashes_rev (s : string) : all_slashes s = true -> all_slashes (rev_string s) = true.
Proof.
  unfold all_slashes, rev_string. rewrite list_ascii_of_string_of_list_ascii.
  rewrite !forallb_forall. intros H c Hc. apply H, in_rev, Hc.
Qed.

(** X26.  The base URL in use is the one of the environment, or the
    default, without the slashes at its end: it never ends in a slash, so
    that the prediction URL joins it to the path with the one slash of the
    path. *)
Theorem base_url_normalised (env : string -> option string) (E : runtime) :
  let base := FLOWISE_BASE_URL (load_settings env E) in
  (forall p, base <> (p ++ "/")%string)
  /\ exists slashes,
       getenv env "FLOWISE_BASE_URL" default_base_url = (base ++ slashes)%string
       /\ all_slashes slashes = true.
Proof.
  simpl. set (s := getenv env "FLOWISE_BASE_URL" default_base_url). split.
  - intros p H. unfold rstrip_slashes in H.
    apply (f_equal rev_string) in H.
    rewrite rev_string_involutive, rev_string_app in H.
    exact (drop_slashes_head _ _ H).
  - destruct (drop_slashes_split (rev_string s)) as (sl & Hs & Hsl).
    exists (rev_string sl). split; [| exact (all_slashes_rev sl Hsl)].
    unfold rstrip_slashes. rewrite <- rev_string_app, <- Hs.
    symmetry. apply rev_string_involutive.
Qed.

(** X27.  A flow identifier set to the empty string in the environment is
    not replaced by the default: every call then raises the configuration
    error and sends nothing. *)
Theorem empty_flow_id_not_defaulted (env : string -> option string) (E : runtime)
  (question : string) (extra : option dict) :
  env "FLOWISE_CHATFLOW_ID" = Some "" ->
  call_flowise (load_settings env E) question extra
  = ([], Raise (RuntimeError missing_flow_id)).
Proof.
  intros H. apply call_flowise_no_flow_id. simpl. unfold getenv. rewrite H. reflexivity.
Qed.

Lemma empty_flow_id_not_defaulted_witness :
  call_flowise (load_settings env_with_empty_id (demo_runtime demo_flow_id (Ok VNone)))
    "q" None
  = ([], Raise (RuntimeError missing_flow_id)).
Proof.
  apply (empty_flow_id_not_defaulted env_with_empty_id). reflexivity.
Defined.

(** X18, on a message after two earlier turns. *)
Lemma chat_question_verbatim_witness :
  map req_json (chat_sent (chat_tab list_answer_runtime earlier_turns (Some "hello")))
  = [[("question", VStr "hello");
      ("sessionId", VStr (session_sid list_answer_runtime))]].
Proof.
  apply (chat_question_verbatim list_answer_runtime earlier_turns ltac:(discriminate)
           "h"%char "ello").
Defined.

(** X19, on a status 500. *)
Lemma chat_failure_kept_witness :
  exists req,
    chat_tab http_error_runtime earlier_turns (Some "hello")
    = mk_chat_run [req]
        (ChatCaption chat_caption :: replay earlier_turns
         ++ [user_bubble "hello"; ChatElement (StSpinner "Sending to Flowise…");
             ChatMessage "assistant"
               (StError ("Flowise call failed: " ++ exn_msg http_error)%string)])
        Stopped
        (earlier_turns
         ++ [mk_message "user" "hello";
             mk_message "assistant" ("Flowise call failed: " ++ exn_msg http_error)%string]).
Proof.
  apply (chat_failure_kept http_error_runtime earlier_turns ltac:(discriminate) http_error
           "h"%char "ello").
  intros req. reflexivity.
Defined.

(** X20, on an answer whose text is a JSON list. *)
Lemma chat_answer_not_mapping_witness :
  exists req,
    chat_tab list_answer_runtime earlier_turns (Some "hello")
    = mk_chat_run [req]
        (ChatCaption chat_caption :: replay earlier_turns
         ++ [user_bubble "hello"; ChatElement (StSpinner "Sending to Flowise…")])
        (Uncaught (AttributeError "list" "get"))
        (earlier_turns ++ [mk_message "user" "hello"]).
Proof.
  apply (chat_answer_not_mapping list_answer_runtime earlier_turns ltac:(discriminate)
           (VDict [("text", VStr "[1, 2]")]) (VList [VInt 1; VInt 2]) "h"%char "ello").
  - intros req. reflexivity.
  - vm_compute. reflexivity.
  - reflexivity.
Defined.


(** X22, on the request of the third of three runs, sent from the
    evaluation tab after a message in the chat box and a report: its
    identifier is the one drawn in the first run. *)
Lemma session_id_stable_witness :
  exists r req,
    nth_error (snd (session_runs (mk_session None None) three_runs)) 2 = Some r
    /\ script_sent r = [req]
    /\ dict_lookup (req_json req) "sessionId" = Some (VStr "u1").
Proof.
  eexists. eexists. split; [reflexivity |]. split; [vm_compute; reflexivity |].
  eapply (session_id_stable (mk_session None None) three_runs).
  - right. right. left. reflexivity.
  - left. reflexivity.
Defined.
